(** * Energino: measurement core and serial command protocol

    A shallow embedding of [sketches/libraries/Energino/energino.h] and the
    properties of its unit converter and of [serParseCommand].

    The target is an AVR micro-controller: [int] is 16 bits wide, [long] is
    32 bits wide and avr-gcc's [double] is the IEEE 754 single format.  The
    floating-point layer is generic in the format (precision and maximal
    exponent), so that the results hold for a 64-bit [double] as well. *)

From Stdlib Require Import ZArith List Bool Ascii String Lia.
From Stdlib Require Import QArith DecimalString.
From Stdlib Require Import Floats.SpecFloat.
From stdpp Require Import base list.

Import ListNotations.
Local Open Scope Z_scope.

(** ** Machine integers *)

Module MachineInt.

(** Two's complement reduction of a mathematical integer to [w] bits. *)
Definition wrap (w : Z) (z : Z) : Z :=
  (z + 2 ^ (w - 1)) mod 2 ^ w - 2 ^ (w - 1).

(** [int] on AVR. *)
Definition wrap16 : Z -> Z := wrap 16.
(** [long] on AVR. *)
Definition wrap32 : Z -> Z := wrap 32.

Definition INT_MIN : Z := - 2 ^ 15.
Definition INT_MAX : Z := 2 ^ 15 - 1.
Definition LONG_MIN : Z := - 2 ^ 31.
Definition LONG_MAX : Z := 2 ^ 31 - 1.

End MachineInt.
Import MachineInt.

(** ** Floating point

    IEEE 754 binary arithmetic as specified by [SpecFloat]: round to nearest,
    ties to even; NaN compares false with everything. *)

Section Float.

Variables prec emax : Z.

(** Conversion of an integer to [double] (rounded when it has more than
    [prec] significant bits). *)
Definition of_int (z : Z) : spec_float := binary_normalize prec emax z 0 false.

Definition fmul : spec_float -> spec_float -> spec_float := SFmul prec emax.
Definition fdiv : spec_float -> spec_float -> spec_float := SFdiv prec emax.
Definition fsub : spec_float -> spec_float -> spec_float := SFsub prec emax.

(** The C comparison [x > 0]. *)
Definition gt0 (x : spec_float) : bool := SFltb (S754_zero false) x.

(** [x >= 0] as C would evaluate it: false on NaN. *)
Definition ge0 (x : spec_float) : bool := SFleb (S754_zero false) x.

(** Integer part of a finite value, rounding toward zero. *)
Definition trunc_finite (s : bool) (m : positive) (e : Z) : Z :=
  cond_Zopp s
    (match e with
     | Z0 => Zpos m
     | Zpos p => Zpos m * 2 ^ Zpos p
     | Zneg p => Zpos m / 2 ^ Zpos p
     end).

(** Conversion of a [double] to [long]: the integer part.  C leaves the
    conversion undefined when the value is not finite or its integer part
    does not fit; the model returns the most negative [long] there, and no
    result below depends on that choice. *)
Definition to_long (x : spec_float) : Z :=
  match x with
  | S754_zero _ => 0
  | S754_finite s m e =>
      let z := trunc_finite s m e in
      if (LONG_MIN <=? z) && (z <=? LONG_MAX) then z else LONG_MIN
  | _ => LONG_MIN
  end.

(** Conversion of a [double] to [int]: through [long], keeping 16 bits. *)
Definition to_int (x : spec_float) : Z := wrap16 (to_long x).

(** The exact rational value of a finite float. *)
Definition value_of (x : spec_float) : option Q :=
  match x with
  | S754_zero _ => Some 0%Q
  | S754_finite s m e =>
      Some (match e with
            | Z0 => inject_Z (cond_Zopp s (Zpos m))
            | Zpos p => inject_Z (cond_Zopp s (Zpos m) * 2 ^ Zpos p)
            | Zneg p => Qmake (cond_Zopp s (Zpos m)) (2 ^ p)
            end)
  | _ => None
  end.

(** The values with a clear sign bit: +0, the positive numbers and
    +infinity, but not NaN. *)
Definition unsigned_class (x : spec_float) : Prop :=
  match x with
  | S754_zero s => s = false
  | S754_infinity s => s = false
  | S754_finite s _ _ => s = false
  | S754_nan => False
  end.

Definition exactly (x : spec_float) (q : Q) : Prop :=
  exists v, value_of x = Some v /\ (v == q)%Q.

End Float.

(** ** Data model *)

(** The permanent configuration, [struct settings_t].  The character arrays
    are lists of bytes of the declared capacity; the [int] fields hold values
    of the 16-bit range and [feedid] is an [unsigned long]. *)
Record settings_t : Type := {
  magic : list ascii;        (* char magic[12] *)
  revision : Z;
  period : Z;
  r1 : Z;
  r2 : Z;
  offset : Z;
  sensitivity : Z;
  relaypin : Z;
  currentpin : Z;
  voltagepin : Z;
  apikey : list ascii;       (* char apikey[49] *)
  feedid : Z;
  feedsurl : list ascii      (* char feedsurl[60] *)
}.

Definition set_period (v : Z) (s : settings_t) : settings_t :=
  {| magic := magic s; revision := revision s; period := v; r1 := r1 s;
     r2 := r2 s; offset := offset s; sensitivity := sensitivity s;
     relaypin := relaypin s; currentpin := currentpin s;
     voltagepin := voltagepin s; apikey := apikey s; feedid := feedid s;
     feedsurl := feedsurl s |}.

Definition set_r1 (v : Z) (s : settings_t) : settings_t :=
  {| magic := magic s; revision := revision s; period := period s; r1 := v;
     r2 := r2 s; offset := offset s; sensitivity := sensitivity s;
     relaypin := relaypin s; currentpin := currentpin s;
     voltagepin := voltagepin s; apikey := apikey s; feedid := feedid s;
     feedsurl := feedsurl s |}.

Definition set_r2 (v : Z) (s : settings_t) : settings_t :=
  {| magic := magic s; revision := revision s; period := period s;
     r1 := r1 s; r2 := v; offset := offset s; sensitivity := sensitivity s;
     relaypin := relaypin s; currentpin := currentpin s;
     voltagepin := voltagepin s; apikey := apikey s; feedid := feedid s;
     feedsurl := feedsurl s |}.

Definition set_offset (v : Z) (s : settings_t) : settings_t :=
  {| magic := magic s; revision := revision s; period := period s;
     r1 := r1 s; r2 := r2 s; offset := v; sensitivity := sensitivity s;
     relaypin := relaypin s; currentpin := currentpin s;
     voltagepin := voltagepin s; apikey := apikey s; feedid := feedid s;
     feedsurl := feedsurl s |}.

Definition set_sensitivity (v : Z) (s : settings_t) : settings_t :=
  {| magic := magic s; revision := revision s; period := period s;
     r1 := r1 s; r2 := r2 s; offset := offset s; sensitivity := v;
     relaypin := relaypin s; currentpin := currentpin s;
     voltagepin := voltagepin s; apikey := apikey s; feedid := feedid s;
     feedsurl := feedsurl s |}.

Definition set_apikey (v : list ascii) (s : settings_t) : settings_t :=
  {| magic := magic s; revision := revision s; period := period s;
     r1 := r1 s; r2 := r2 s; offset := offset s;
     sensitivity := sensitivity s; relaypin := relaypin s;
     currentpin := currentpin s; voltagepin := voltagepin s; apikey := v;
     feedid := feedid s; feedsurl := feedsurl s |}.

Definition set_feedid (v : Z) (s : settings_t) : settings_t :=
  {| magic := magic s; revision := revision s; period := period s;
     r1 := r1 s; r2 := r2 s; offset := offset s;
     sensitivity := sensitivity s; relaypin := relaypin s;
     currentpin := currentpin s; voltagepin := voltagepin s;
     apikey := apikey s; feedid := v; feedsurl := feedsurl s |}.

Definition set_feedsurl (v : list ascii) (s : settings_t) : settings_t :=
  {| magic := magic s; revision := revision s; period := period s;
     r1 := r1 s; r2 := r2 s; offset := offset s;
     sensitivity := sensitivity s; relaypin := relaypin s;
     currentpin := currentpin s; voltagepin := voltagepin s;
     apikey := apikey s; feedid := feedid s; feedsurl := v |}.

(** [int DEFAULT_AREF = 5000;] *)
Definition DEFAULT_AREF : Z := 5000.

(** ** Unit converter *)

Section UnitConverter.

Variables prec emax : Z.
Variable settings : settings_t.

Notation "x *. y" := (fmul prec emax x y) (at level 40, left associativity).
Notation "x /. y" := (fdiv prec emax x y) (at level 40, left associativity).
Notation "x -. y" := (fsub prec emax x y) (at level 50, left associativity).
Abbreviation dbl := (of_int prec emax).

(** [return aref / 1024.0;] *)
Definition res (aref : Z) : spec_float := dbl aref /. dbl 1024.

(** [return (res(aref) * (settings.r1 + settings.r2)) / settings.r2;]
    with the sum computed in [int] and the quotient converted to [int]. *)
Definition VError_double (aref : Z) : spec_float :=
  (res aref *. dbl (wrap16 (r1 settings + r2 settings))) /. dbl (r2 settings).

Definition getVError (aref : Z) : Z := to_int (VError_double aref).

Definition getVError_default : Z := getVError DEFAULT_AREF.

(** [return (res(aref) / settings.sensitivity) * 1000.0;] *)
Definition getIError (aref : Z) : Z :=
  to_int ((res aref /. dbl (sensitivity settings)) *. dbl 1000).

Definition getIError_default : Z := getIError DEFAULT_AREF.

Definition getAvgVoltage (value : spec_float) (aref : Z) : spec_float :=
  let v_out := value *. res aref in
  let output :=
    (v_out *. dbl (wrap16 (r1 settings + r2 settings))) /. dbl (r2 settings) in
  if gt0 output then output /. dbl 1000 else dbl 0.

Definition getAvgVoltage_default (value : spec_float) : spec_float :=
  getAvgVoltage value DEFAULT_AREF.

Definition getAvgCurrent (value : spec_float) (aref : Z) : spec_float :=
  let v_out := value *. res aref in
  let output := (v_out -. dbl (offset settings)) /. dbl (sensitivity settings) in
  if gt0 output then output else dbl 0.

Definition getAvgCurrent_default (value : spec_float) : spec_float :=
  getAvgCurrent value DEFAULT_AREF.

Definition getAvgPower (voltage current : spec_float) (aref : Z) : spec_float :=
  getAvgVoltage voltage aref *. getAvgCurrent current aref.

Definition getAvgPower_default (voltage current : spec_float) : spec_float :=
  getAvgPower voltage current DEFAULT_AREF.

End UnitConverter.

(** ** Characters and C strings *)

Definition NUL : ascii := "000"%char.
Definition CR : ascii := "013"%char.
Definition LF : ascii := "010"%char.

Definition code (c : ascii) : Z := Z.of_N (N_of_ascii c).

(** The bytes of a C string stored in [s]: everything before the first NUL. *)
Fixpoint cstr (s : list ascii) : list ascii :=
  match s with
  | [] => []
  | c :: s' => if Ascii.eqb c NUL then [] else c :: cstr s'
  end.

(** Whether the array holds a NUL, so that a C string ends inside it. *)
Definition terminated (s : list ascii) : bool :=
  existsb (fun c => Ascii.eqb c NUL) s.

(** [strncpy(dst, src, n)]: the string in [src], cut after [n] bytes, and
    padded with NUL up to [n] bytes, replaces the first [n] bytes of [dst]. *)
Definition strncpy (dst src : list ascii) (n : nat) : list ascii :=
  let s := take n (cstr src) in
  s ++ replicate (n - length s) NUL ++ drop n dst.

(** *** libc number parsing

    [atoi] and [atol] of the C library: white space is skipped, one
    optional sign is read, then decimal digits up to the first other
    character.  On overflow, which C leaves open, the accumulator of
    avr-libc has the width of the result and wraps. *)

Definition isspace (c : ascii) : bool :=
  Ascii.eqb c " " || ((9 <=? code c) && (code c <=? 13)).

Definition isdigit (c : ascii) : bool :=
  (48 <=? code c) && (code c <=? 57).

Fixpoint skip_space (s : list ascii) : list ascii :=
  match s with
  | c :: s' => if isspace c then skip_space s' else s
  | [] => []
  end.

Fixpoint digits (acc : Z) (s : list ascii) : Z :=
  match s with
  | c :: s' => if isdigit c then digits (10 * acc + (code c - 48)) s' else acc
  | [] => acc
  end.

Definition signed_digits (s : list ascii) : Z :=
  match s with
  | c :: s' =>
      if Ascii.eqb c "-" then - digits 0 s'
      else if Ascii.eqb c "+" then digits 0 s'
      else digits 0 s
  | [] => 0
  end.

Definition atoi (s : list ascii) : Z := wrap16 (signed_digits (skip_space s)).
Definition atol (s : list ascii) : Z := wrap32 (signed_digits (skip_space s)).

(** Decimal text of an integer, as [Serial.print] writes it. *)
Definition decimal (z : Z) : string := NilZero.string_of_int (Z.to_int z).

(** ** Device state and the monad of the firmware's effects *)

(** What the command parser can observe and change: the configuration record
    in RAM, the serial port (bytes waiting in the receive queue, text written
    so far), the blocks written to the EEPROM (newest first) and the levels
    written to digital pins (newest first). *)
Record device : Type := {
  settings : settings_t;
  serial_in : list ascii;
  serial_out : string;
  eeprom : list settings_t;
  pins : list (Z * bool)
}.

Definition with_settings (f : settings_t -> settings_t) (d : device) : device :=
  {| settings := f (settings d); serial_in := serial_in d;
     serial_out := serial_out d; eeprom := eeprom d; pins := pins d |}.

Definition with_serial_in (q : list ascii) (d : device) : device :=
  {| settings := settings d; serial_in := q;
     serial_out := serial_out d; eeprom := eeprom d; pins := pins d |}.

Definition with_serial_out (o : string) (d : device) : device :=
  {| settings := settings d; serial_in := serial_in d;
     serial_out := o; eeprom := eeprom d; pins := pins d |}.

Definition with_eeprom (e : list settings_t) (d : device) : device :=
  {| settings := settings d; serial_in := serial_in d;
     serial_out := serial_out d; eeprom := e; pins := pins d |}.

Definition with_pins (w : list (Z * bool)) (d : device) : device :=
  {| settings := settings d; serial_in := serial_in d;
     serial_out := serial_out d; eeprom := eeprom d; pins := w |}.

(** Behaviour that C leaves undefined. *)
Inductive fault : Type :=
| OutOfBounds      (* a store past the end of an array *)
| Unterminated.    (* a string read that runs off its array *)

(** A statement either falls through with a value, executes [return], or
    runs into undefined behaviour. *)
Inductive step (A : Type) : Type :=
| Next (a : A) (d : device)
| Returned (d : device)
| Crashed (f : fault).
Arguments Next {A} a d.
Arguments Returned {A} d.
Arguments Crashed {A} f.

Definition M (A : Type) : Type := device -> step A.

Definition ret {A} (a : A) : M A := fun d => Next a d.

Definition bind {A B} (m : M A) (k : A -> M B) : M B :=
  fun d =>
    match m d with
    | Next a d' => k a d'
    | Returned d' => Returned d'
    | Crashed f => Crashed f
    end.

Notation "x <- m ;; k" := (bind m (fun x => k))
  (at level 100, m at level 60, right associativity).
Notation "m ;;; k" := (bind m (fun _ => k))
  (at level 100, right associativity).

(** The C statement [return;]. *)
Definition return_ {A} : M A := fun d => Returned d.

Definition crash {A} (f : fault) : M A := fun _ => Crashed f.

Definition modify (f : device -> device) : M unit := fun d => Next tt (f d).

(** The result of a call of a [void] function. *)
Inductive exit : Type :=
| Done (d : device)
| Undefined (f : fault).

Definition call (m : M unit) (d : device) : exit :=
  match m d with
  | Next _ d' => Done d'
  | Returned d' => Done d'
  | Crashed f => Undefined f
  end.

(** *** Collaborators: serial port, pins, EEPROM *)

Definition Serial_available : M nat := fun d => Next (length (serial_in d)) d.

(** [Serial.read()] takes the oldest byte of the queue; on an empty queue it
    returns -1, which is 255 as a [char]. *)
Definition Serial_read : M ascii :=
  fun d =>
    match serial_in d with
    | c :: q => Next c (with_serial_in q d)
    | [] => Next "255"%char d
    end.

Definition printed (s : string) (d : device) : device :=
  with_serial_out (serial_out d ++ s)%string d.

Definition Serial_print (s : string) : M unit := modify (printed s).

Definition CRLF : string := String CR (String LF EmptyString).

Definition Serial_println (s : string) : M unit := Serial_print (s ++ CRLF)%string.

(** [Serial.println] of a character array: the string it holds. *)
Definition Serial_println_chars (a : list ascii) : M unit :=
  if terminated a then Serial_println (string_of_list_ascii (cstr a))
  else crash Unterminated.

Definition HIGH : bool := true.
Definition LOW : bool := false.

Definition driven (pin : Z) (level : bool) (d : device) : device :=
  with_pins ((pin, level) :: pins d) d.

Definition digitalWrite (pin : Z) (level : bool) : M unit :=
  modify (driven pin level).

(** [eeprom_write_block(&settings, 0, sizeof(settings))] *)
Definition saved (d : device) : device :=
  with_eeprom (settings d :: eeprom d) d.

Definition saveSettings : M unit := modify saved.

Definition dumpSettings : M unit :=
  s <- (fun d => Next (settings d) d) ;;
  Serial_print "@magic: " ;;;
  Serial_println_chars (magic s) ;;;
  Serial_print "@revision: " ;;;
  Serial_println (decimal (revision s)) ;;;
  Serial_print "@period: " ;;;
  Serial_print (decimal (period s)) ;;;
  Serial_println " ms" ;;;
  Serial_print "@r1: " ;;;
  Serial_print (decimal (r1 s)) ;;;
  Serial_println " Kohm" ;;;
  Serial_print "@r2: " ;;;
  Serial_print (decimal (r2 s)) ;;;
  Serial_println " Kohm" ;;;
  Serial_print "@offset: " ;;;
  Serial_print (decimal (offset s)) ;;;
  Serial_println " mV" ;;;
  Serial_print "@sensitivity: " ;;;
  Serial_print (decimal (sensitivity s)) ;;;
  Serial_println " mV/A" ;;;
  Serial_print "@relaypin: " ;;;
  Serial_println (decimal (relaypin s)) ;;;
  Serial_print "@currentpin: " ;;;
  Serial_println (decimal (currentpin s)) ;;;
  Serial_print "@voltagepin: " ;;;
  Serial_println (decimal (voltagepin s)).

(** *** The input buffer *)

(** [char inputBytes[60] = {'\0'};] *)
Definition INPUT_SIZE : nat := 60.
Definition APIKEY_SIZE : nat := 49.
Definition FEEDSURL_SIZE : nat := 60.

(** [a[i] = c]; a store past the end of the array is undefined. *)
Definition store (a : list ascii) (i : nat) (c : ascii) : M (list ascii) :=
  if (i <? length a)%nat then ret (<[i := c]> a) else crash OutOfBounds.

(** ** Command protocol *)

(** The receive loop of [serParseCommand]:
    [for (i = 0; i < serAva; i++) { char chr = Serial.read(); ... }]
    with [n = serAva - i] iterations to go. *)
Fixpoint read_frame (n i : nat) (cmd : ascii) (inputBytes : list ascii)
  : M (nat * ascii * list ascii) :=
  match n with
  | O => ret (i, cmd, inputBytes)
  | S n' =>
      chr <- Serial_read ;;
      match i with
      | O =>
          if negb (Ascii.eqb chr "#") then return_
          else read_frame n' 1 cmd inputBytes
      | S O => read_frame n' 2 chr inputBytes
      | S (S j) =>
          inputBytes' <- store inputBytes j chr ;;
          read_frame n' (S i) cmd inputBytes'
      end
  end.

Section CommandProtocol.

Variables prec emax : Z.

(** [void reset();] is declared in the header and defined by the sketch
    that includes it; it is a parameter here: some change of the device,
    after which control comes back to [serParseCommand]. *)
Variable reset : device -> device.

(** [analogRead(pin)]: the sample the converter delivers at the [k]-th
    read of a calibration run. *)
Variable analogRead : Z -> nat -> Z.

(** [for (long i = 0; i < 1000; i++) value += analogRead(pin);] with
    [n] reads to go, [k] reads done. *)
Fixpoint sample_sum (n k : nat) (pin value : Z) : Z :=
  match n with
  | O => value
  | S n' => sample_sum n' (S k) pin (wrap32 (value + wrap16 (analogRead pin k)))
  end.

(** The branch of command [T]. *)
Definition calibrate (aref : Z) : M unit :=
  fun d =>
    let value := sample_sum 1000 0 (currentpin (settings d)) 0 in
    let v_out :=
      to_long (fdiv prec emax
                 (fmul prec emax (of_int prec emax value) (res prec emax aref))
                 (of_int prec emax 1000)) in
    (Serial_print "@offset: " ;;;
     Serial_println (decimal v_out) ;;;
     modify (with_settings (set_offset (wrap16 v_out)))) d.

(** The part of [serParseCommand] under [// execute command]: the chain
    of tests on [cmd].  A [return] in it leaves [serParseCommand]. *)
Definition dispatch (aref : Z) (cmd : ascii) (inputBytes : list ascii) : M unit :=
  if Ascii.eqb cmd "R" then
    Serial_println "@reset" ;;;
    modify reset
  else if Ascii.eqb cmd "Z" then
    dumpSettings
  else if Ascii.eqb cmd "T" then
    calibrate aref
  else if Ascii.eqb cmd "F" then
    let value := atol inputBytes in
    if 0 <=? value then modify (with_settings (set_feedid value))
    else ret tt
  else if Ascii.eqb cmd "K" then
    modify (with_settings (fun s =>
      set_apikey (strncpy (apikey s) inputBytes APIKEY_SIZE) s)) ;;;
    modify (with_settings (fun s =>
      set_apikey (<[48%nat := NUL]> (apikey s)) s))
  else if Ascii.eqb cmd "U" then
    modify (with_settings (fun s =>
      set_feedsurl (strncpy (feedsurl s) inputBytes FEEDSURL_SIZE) s)) ;;;
    modify (with_settings (fun s =>
      set_feedsurl (<[59%nat := NUL]> (feedsurl s)) s))
  else
    let value := atoi inputBytes in
    if value <? 0 then return_ else
    if Ascii.eqb cmd "P" then
      modify (with_settings (set_period value)) ;;;
      Serial_print "@period: " ;;;
      Serial_print (decimal value) ;;;
      Serial_println "ms"
    else if Ascii.eqb cmd "A" then
      modify (with_settings (set_r1 value)) ;;;
      Serial_print "R1: " ;;;
      Serial_print (decimal value) ;;;
      Serial_println " Kohm"
    else if Ascii.eqb cmd "B" then
      modify (with_settings (set_r2 value)) ;;;
      Serial_print "R2: " ;;;
      Serial_print (decimal value) ;;;
      Serial_println " Kohm"
    else if Ascii.eqb cmd "C" then
      modify (with_settings (set_offset value)) ;;;
      Serial_print "Offeset: " ;;;
      Serial_print (decimal value) ;;;
      Serial_println " mV"
    else if Ascii.eqb cmd "D" then
      modify (with_settings (set_sensitivity value)) ;;;
      Serial_print "Sensitivity: " ;;;
      Serial_print (decimal value) ;;;
      Serial_println " mV/A"
    else if Ascii.eqb cmd "S" then
      s <- (fun d => Next (settings d) d) ;;
      if 0 <? value then
        Serial_println "@switch: high" ;;;
        digitalWrite (relaypin s) HIGH
      else
        Serial_println "@switch: low" ;;;
        digitalWrite (relaypin s) LOW
    else ret tt.

Definition serParseCommand_body (aref : Z) : M unit :=
  avail <- Serial_available ;;
  if (avail =? 0)%nat then return_ else
  serAva <- Serial_available ;;
  r <- read_frame serAva 0 NUL (replicate INPUT_SIZE NUL) ;;
  let '(i, cmd, inputBytes) := r in
  inputBytes <- store inputBytes i NUL ;;
  dispatch aref cmd inputBytes ;;;
  saveSettings.

(** [void serParseCommand(int aref)] *)
Definition serParseCommand (aref : Z) (d : device) : exit :=
  call (serParseCommand_body aref) d.

(** [void serParseCommand()] *)
Definition serParseCommand_default (d : device) : exit :=
  serParseCommand DEFAULT_AREF d.

End CommandProtocol.

(** ** Persistent storage and the telemetry line *)

Section Storage.

(** What the EEPROM holds at the address of the record before the first
    [saveSettings]. *)
Variable erased : settings_t.

(** [eeprom_read_block(&settings, 0, sizeof(settings))]: the block written
    last comes back. *)
Definition loadSettings : M unit :=
  modify (fun d =>
    with_settings
      (fun _ => match eeprom d with
                | s :: _ => s
                | [] => erased
                end) d).

End Storage.

(** [Serial.print] of a character array: the string it holds. *)
Definition Serial_print_chars (a : list ascii) : M unit :=
  if terminated a then Serial_print (string_of_list_ascii (cstr a))
  else crash Unterminated.

(** The last computed values: [VFinal], [IFinal] and [lastSamples]. *)
Record readings : Type := {
  VFinal : spec_float;
  IFinal : spec_float;
  lastSamples : Z
}.

(** [int V_DIGITS = 3; int C_DIGITS = 3; int P_DIGITS = 2;] *)
Definition V_DIGITS : Z := 3.
Definition C_DIGITS : Z := 3.
Definition P_DIGITS : Z := 2.

Section Telemetry.

Variables prec emax : Z.

(** [Serial.print(double, digits)] of the Arduino core: the text of a
    number with so many decimals. *)
Variable print_double : spec_float -> Z -> string.

(** [digitalRead(pin)], given the levels written so far. *)
Variable digitalRead : list (Z * bool) -> Z -> Z.

(** [void dumpToSerial(int aref)] *)
Definition dumpToSerial (last : readings) (aref : Z) : M unit :=
  s <- (fun d => Next (settings d) d) ;;
  Serial_print "#" ;;;
  Serial_print_chars (magic s) ;;;
  Serial_print "," ;;;
  Serial_print (decimal (revision s)) ;;;
  Serial_print "," ;;;
  Serial_print (print_double (getAvgVoltage prec emax s (VFinal last) aref) V_DIGITS) ;;;
  Serial_print "," ;;;
  Serial_print (print_double (getAvgCurrent prec emax s (IFinal last) aref) C_DIGITS) ;;;
  Serial_print "," ;;;
  Serial_print
    (print_double (getAvgPower prec emax s (VFinal last) (IFinal last) aref) P_DIGITS) ;;;
  Serial_print "," ;;;
  level <- (fun d => Next (digitalRead (pins d) (relaypin s)) d) ;;
  Serial_print (decimal level) ;;;
  Serial_print "," ;;;
  Serial_print (decimal (period s)) ;;;
  Serial_print "," ;;;
  Serial_print (decimal (lastSamples last)) ;;;
  Serial_print "," ;;;
  Serial_print (decimal (getVError prec emax s aref)) ;;;
  Serial_print "," ;;;
  Serial_print (decimal (getIError prec emax s aref)) ;;;
  Serial_print (String LF EmptyString).

(** [void dumpToSerial()] *)
Definition dumpToSerial_default (last : readings) : M unit :=
  dumpToSerial last DEFAULT_AREF.

End Telemetry.

(** ** Vocabulary of the statements *)

(** A suffix at which every reader of a C string or of a number stops. *)
Definition stops (z : list ascii) : Prop :=
  match z with
  | [] => True
  | c :: _ => c = NUL
  end.

(** The input buffer after a payload has been received into it. *)
Definition padded (payload : list ascii) : list ascii :=
  payload ++ replicate (INPUT_SIZE - length payload) NUL.

(** A frame [# cmd payload] fits the input buffer when the terminator, which
    the function stores at index [serAva], still lands inside it. *)
Definition fits_buffer (payload : list ascii) : Prop :=
  (2 + length payload < INPUT_SIZE)%nat.

(** The command bytes of the branches that take their payload as text or
    take none, and those of all the branches. *)
Definition text_commands : list ascii := list_ascii_of_string "RZTFKU".
Definition numeric_commands : list ascii := list_ascii_of_string "PABCDS".
Definition known_commands : list ascii := text_commands ++ numeric_commands.

(** *** Vocabulary of the further properties *)

(** The record as the declarations of [struct settings_t] constrain it: the
    capacities of the three arrays, a terminator inside [apikey] and
    [feedsurl], the [int] fields in the 16-bit range, with [period], [r1],
    [r2] and [sensitivity] not negative, and [feedid] an [unsigned long]. *)
Definition settings_ok (s : settings_t) : Prop :=
  length (magic s) = 12%nat /\
  length (apikey s) = APIKEY_SIZE /\ terminated (apikey s) = true /\
  length (feedsurl s) = FEEDSURL_SIZE /\ terminated (feedsurl s) = true /\
  0 <= period s <= INT_MAX /\ 0 <= r1 s <= INT_MAX /\ 0 <= r2 s <= INT_MAX /\
  INT_MIN <= offset s <= INT_MAX /\ 0 <= sensitivity s <= INT_MAX /\
  0 <= feedid s < 2 ^ 32.

(** The record in RAM is the one a [loadSettings] would bring back. *)
Definition in_sync (d : device) : Prop :=
  hd_error (eeprom d) = Some (settings d).

(** The fields no command assigns. *)
Definition fixed_fields (s : settings_t) : list ascii * Z * Z * Z * Z :=
  (magic s, revision s, relaypin s, currentpin s, voltagepin s).

(** The text of [dumpSettings]. *)
Definition dump_text (s : settings_t) : string :=
  ("@magic: " ++ string_of_list_ascii (cstr (magic s)) ++ CRLF ++
   "@revision: " ++ decimal (revision s) ++ CRLF ++
   "@period: " ++ decimal (period s) ++ " ms" ++ CRLF ++
   "@r1: " ++ decimal (r1 s) ++ " Kohm" ++ CRLF ++
   "@r2: " ++ decimal (r2 s) ++ " Kohm" ++ CRLF ++
   "@offset: " ++ decimal (offset s) ++ " mV" ++ CRLF ++
   "@sensitivity: " ++ decimal (sensitivity s) ++ " mV/A" ++ CRLF ++
   "@relaypin: " ++ decimal (relaypin s) ++ CRLF ++
   "@currentpin: " ++ decimal (currentpin s) ++ CRLF ++
   "@voltagepin: " ++ decimal (voltagepin s) ++ CRLF)%string.

(** The control loop calls [serParseCommand] once per iteration: [n]
    calls in a row, stopping at undefined behaviour. *)
Fixpoint calls (parse : device -> exit) (n : nat) (d : device) : exit :=
  match n with
  | O => Done d
  | S n' =>
      match parse d with
      | Done d' => calls parse n' d'
      | Undefined f => Undefined f
      end
  end.

(** Zero of either sign, or NaN. *)
Definition zero_or_nan (x : spec_float) : Prop :=
  match x with
  | S754_zero _ => True
  | S754_nan => True
  | _ => False
  end.

(** The sum of [n] reads of a pin, from the [k]-th on, in the integers. *)
Fixpoint total (adc : Z -> nat -> Z) (pin : Z) (n k : nat) : Z :=
  match n with
  | O => 0
  | S n' => adc pin k + total adc pin n' (S k)
  end.

(** What the receive code hands to the dispatch for a batch that starts
    with the marker: the second byte, or NUL when there is none, and the
    buffer with the bytes after it. *)
Definition frame_command (batch : list ascii) : ascii := nth 1 batch NUL.
Definition frame_buffer (batch : list ascii) : list ascii := padded (drop 2 batch).

(** The value [v_out] of the T branch. *)
Definition calibrated (prec emax : Z) (adc : Z -> nat -> Z) (aref pin : Z) : Z :=
  to_long (fdiv prec emax
             (fmul prec emax (of_int prec emax (sample_sum adc 1000 0 pin 0))
                (res prec emax aref))
             (of_int prec emax 1000)).

(** The text of [dumpToSerial]. *)
Definition telemetry_line (prec emax : Z) (print_double : spec_float -> Z -> string)
    (level : Z) (s : settings_t) (last : readings) (aref : Z) : string :=
  ("#" ++ string_of_list_ascii (cstr (magic s)) ++ "," ++
   decimal (revision s) ++ "," ++
   print_double (getAvgVoltage prec emax s (VFinal last) aref) V_DIGITS ++ "," ++
   print_double (getAvgCurrent prec emax s (IFinal last) aref) C_DIGITS ++ "," ++
   print_double (getAvgPower prec emax s (VFinal last) (IFinal last) aref) P_DIGITS
   ++ "," ++
   decimal level ++ "," ++
   decimal (period s) ++ "," ++
   decimal (lastSamples last) ++ "," ++
   decimal (getVError prec emax s aref) ++ "," ++
   decimal (getIError prec emax s aref) ++ String LF EmptyString)%string.

(** What a branch other than R can do to the device. *)
Definition branch_effect (c : ascii) (d d1 : device) : Prop :=
  eeprom d1 = eeprom d /\
  serial_in d1 = serial_in d /\
  (exists t, serial_out d1 = (serial_out d ++ t)%string) /\
  (pins d1 = pins d \/
   exists level, c = "S"%char /\
                 pins d1 = (relaypin (settings d), level) :: pins d) /\
  fixed_fields (settings d1) = fixed_fields (settings d) /\
  (settings_ok (settings d) -> settings_ok (settings d1)).

(** A suffix at which [atoi] stops reading whatever came before: it
    starts with a character that is no digit, no sign and no white space. *)
Definition halts (z : list ascii) : Prop :=
  match z with
  | [] => True
  | c :: _ =>
      isdigit c = false /\ isspace c = false /\
      Ascii.eqb c "-" = false /\ Ascii.eqb c "+" = false
  end.

(** *** A device on the bench, for the concrete runs *)

Definition bench_settings : settings_t :=
  {| magic := list_ascii_of_string "Energino" ++ replicate 4 NUL;
     revision := 1; period := 2000; r1 := 100; r2 := 10; offset := 2500;
     sensitivity := 185; relaypin := 2; currentpin := 0; voltagepin := 1;
     apikey := replicate APIKEY_SIZE NUL; feedid := 0;
     feedsurl := replicate FEEDSURL_SIZE NUL |}.

(** The device with the bytes of [frame] waiting on the serial port. *)
Definition bench (frame : string) : device :=
  {| settings := bench_settings; serial_in := list_ascii_of_string frame;
     serial_out := ""; eeprom := []; pins := [] |}.

(** A sketch whose [reset] leaves the device alone and a converter that
    reads mid-scale. *)
Definition bench_reset : device -> device := fun d => d.
Definition bench_adc : Z -> nat -> Z := fun _ _ => 512.

(** [serParseCommand()] on the bench, with avr-gcc's [double]. *)
Definition bench_run (frame : string) : exit :=
  serParseCommand_default 24 128 bench_reset bench_adc (bench frame).


(** Stand-ins for the number printer of the Arduino core and for the pin
    reader, and the readings of one measurement cycle. *)
Definition bench_print_double : spec_float -> Z -> string :=
  fun x digits => if ge0 x then "+"%string else "-"%string.
Definition bench_digitalRead : list (Z * bool) -> Z -> Z :=
  fun written pin =>
    match written with
    | (p, true) :: _ => if p =? pin then 1 else 0
    | _ => 0
    end.
Definition bench_readings : readings :=
  {| VFinal := of_int 24 128 512; IFinal := of_int 24 128 600;
     lastSamples := 1000 |}.

(** The bench with a magic tag of twelve characters, which fills its array
    and leaves no room for a NUL. *)
Definition bench_full_tag (frame : string) : device :=
  with_settings (fun s =>
    {| magic := list_ascii_of_string "EnerginoPOE1"; revision := revision s;
       period := period s; r1 := r1 s; r2 := r2 s; offset := offset s;
       sensitivity := sensitivity s; relaypin := relaypin s;
       currentpin := currentpin s; voltagepin := voltagepin s;
       apikey := apikey s; feedid := feedid s; feedsurl := feedsurl s |})
    (bench frame).

(** * Properties *)

(** ** Machine integers *)

Lemma wrap16_small z : INT_MIN <= z <= INT_MAX -> wrap16 z = z.
Proof.
  unfold wrap16, wrap, INT_MIN, INT_MAX. intros H.
  rewrite Z.mod_small; lia.
Qed.

Lemma wrap32_small z : LONG_MIN <= z <= LONG_MAX -> wrap32 z = z.
Proof.
  unfold wrap32, wrap, LONG_MIN, LONG_MAX. intros H.
  rewrite Z.mod_small; lia.
Qed.

Lemma wrap16_range z : INT_MIN <= wrap16 z <= INT_MAX.
Proof.
  unfold wrap16, wrap, INT_MIN, INT_MAX.
  pose proof (Z.mod_pos_bound (z + 2 ^ (16 - 1)) (2 ^ 16) ltac:(lia)). lia.
Qed.

(** ** Floating point: signs survive rounding *)

Section FloatFacts.

Variables prec emax : Z.

Lemma unsigned_class_ge0 x : unsigned_class x -> ge0 x = true.
Proof. destruct x as [[]|[]| |[] m e]; simpl; intros H; try easy. Qed.

Lemma shr_1_nonneg mrs : 0 <= shr_m mrs -> 0 <= shr_m (shr_1 mrs).
Proof.
  destruct mrs as [m r t]. simpl.
  destruct m as [|[p|p|]|[p|p|]]; simpl; lia.
Qed.

Lemma iter_shr_1_nonneg p :
  forall mrs, 0 <= shr_m mrs -> 0 <= shr_m (SpecFloat.iter_pos shr_1 p mrs).
Proof.
  induction p as [p IH|p IH|]; intros mrs H; simpl.
  - apply IH, IH, shr_1_nonneg, H.
  - apply IH, IH, H.
  - apply shr_1_nonneg, H.
Qed.

Lemma shr_fexp_nonneg m e l :
  0 <= m -> 0 <= shr_m (fst (shr_fexp prec emax m e l)).
Proof.
  intros H. unfold shr_fexp, shr.
  assert (H0 : shr_m (shr_record_of_loc m l) = m)
    by (destruct l as [|[]]; reflexivity).
  destruct (fexp prec emax (Zdigits2 m + e) - e); simpl; try lia.
  apply iter_shr_1_nonneg. lia.
Qed.

Lemma round_nearest_even_nonneg m l : 0 <= m -> 0 <= round_nearest_even m l.
Proof.
  intros H. destruct l as [|[]]; simpl; try lia.
  destruct (Z.even m); lia.
Qed.

(** Rounding a non-negative significand with a positive sign bit never
    yields a negative value or NaN. *)
Lemma binary_round_aux_unsigned m e l :
  0 <= m -> unsigned_class (binary_round_aux prec emax false m e l).
Proof.
  intros H. unfold binary_round_aux.
  pose proof (shr_fexp_nonneg m e l H) as H1.
  destruct (shr_fexp prec emax m e l) as [mrs' e']. simpl in H1.
  pose proof (shr_fexp_nonneg _ e' loc_Exact
                (round_nearest_even_nonneg _ (loc_of_shr_record mrs') H1)) as H2.
  destruct (shr_fexp prec emax _ e' loc_Exact) as [mrs'' e'']. simpl in H2.
  destruct (shr_m mrs'') as [|q|q]; simpl; try easy.
  destruct (e'' <=? emax - prec); reflexivity.
Qed.

Lemma SFdiv_core_nonneg mx ex my ey :
  0 <= fst (fst (SFdiv_core_binary prec emax (Zpos mx) ex (Zpos my) ey)).
Proof.
  unfold SFdiv_core_binary.
  set (sh := ex - ey - _).
  set (m' := match sh with Z0 => Zpos mx | Zpos _ => Z.shiftl (Zpos mx) sh | Zneg _ => 0 end).
  assert (Hm : 0 <= m').
  { subst m'. destruct sh; try lia. apply Z.shiftl_nonneg. lia. }
  pose proof (Z.div_eucl_eq m' (Zpos my) ltac:(lia)) as Heq.
  pose proof (Z.mod_pos_bound m' (Zpos my) ltac:(lia)) as Hr.
  unfold Z.modulo in Hr.
  destruct (Z.div_eucl m' (Zpos my)) as [q r]. simpl. nia.
Qed.

(** A quotient of two values that are positive (or zero) is positive, zero
    or, for [0/0] and [inf/inf], NaN; it is never negative.  With a finite
    divisor other than zero, NaN needs a zero dividend. *)
Lemma fdiv_unsigned x my ey :
  gt0 x = true ->
  unsigned_class (fdiv prec emax x (S754_finite false my ey)).
Proof.
  destruct x as [[]|[]| |[] mx ex]; simpl; intros H; try easy.
  pose proof (SFdiv_core_nonneg mx ex my ey) as Hq.
  destruct (SFdiv_core_binary prec emax (Zpos mx) ex (Zpos my) ey) as [[q e'] l].
  apply binary_round_aux_unsigned. exact Hq.
Qed.

Lemma gt0_ge0 x : gt0 x = true -> ge0 x = true.
Proof.
  unfold gt0, ge0, SFltb, SFleb.
  destruct (SFcompare (S754_zero false) x) as [[]|]; easy.
Qed.

End FloatFacts.

(** ** Unit converter *)

Section ConverterFacts.

Variables prec emax : Z.
Variables (m1000 : positive) (e1000 : Z).

(** 1000 is a finite number of the format. *)
Hypothesis thousand : of_int prec emax 1000 = S754_finite false m1000 e1000.

Lemma getAvgVoltage_ge0 s v aref :
  ge0 (getAvgVoltage prec emax s v aref) = true.
Proof.
  unfold getAvgVoltage.
  match goal with |- context [gt0 ?o] => destruct (gt0 o) eqn:Hpos end.
  - rewrite thousand. apply unsigned_class_ge0, fdiv_unsigned, Hpos.
  - reflexivity.
Qed.

Lemma getAvgCurrent_ge0 s v aref :
  ge0 (getAvgCurrent prec emax s v aref) = true.
Proof.
  unfold getAvgCurrent.
  match goal with |- context [gt0 ?o] => destruct (gt0 o) eqn:Hpos end.
  - apply gt0_ge0, Hpos.
  - reflexivity.
Qed.

End ConverterFacts.

(** C6.  For every raw sample value (so for every [v >= 0]), every reference
    voltage and every calibration, [getAvgVoltage] and [getAvgCurrent] return
    a value that compares [>= 0]: never a negative number and never NaN.
    This holds for avr-gcc's 32-bit [double] and for a 64-bit [double]. *)
Theorem avg_readings_not_negative (s : settings_t) (v : spec_float) (aref : Z) :
  (ge0 (getAvgVoltage 24 128 s v aref) = true /\
   ge0 (getAvgCurrent 24 128 s v aref) = true) /\
  (ge0 (getAvgVoltage 53 1024 s v aref) = true /\
   ge0 (getAvgCurrent 53 1024 s v aref) = true).
Proof.
  split; split.
  - eapply getAvgVoltage_ge0. reflexivity.
  - apply getAvgCurrent_ge0.
  - eapply getAvgVoltage_ge0. reflexivity.
  - apply getAvgCurrent_ge0.
Qed.

(** C7.  [getAvgPower(v, i, aref)] is the product of [getAvgVoltage(v, aref)]
    and [getAvgCurrent(i, aref)], and the overload without [aref] is
    [getAvgPower(v, i, 5000)]. *)
Theorem avg_power_composition (prec emax : Z) (s : settings_t)
    (v i : spec_float) (aref : Z) :
  getAvgPower prec emax s v i aref =
    fmul prec emax (getAvgVoltage prec emax s v aref)
                   (getAvgCurrent prec emax s i aref) /\
  getAvgPower_default prec emax s v i = getAvgPower prec emax s v i 5000.
Proof. split; reflexivity. Qed.

(** C8.  With [r1 = 100], [r2 = 10] and [aref = 5000]: [res(5000)] is exactly
    4.8828125, the quotient [res * 110 / 10] is exactly 53.7109375 as a
    [double], and [getVError(5000)] returns it truncated toward zero, 53.
    The same holds with a 64-bit [double]. *)
Theorem vError_truncates (s : settings_t) :
  r1 s = 100 -> r2 s = 10 ->
  (exactly (res 24 128 5000) (48828125 # 10000000) /\
   exactly (VError_double 24 128 s 5000) (537109375 # 10000000) /\
   getVError 24 128 s 5000 = 53) /\
  (exactly (res 53 1024 5000) (48828125 # 10000000) /\
   exactly (VError_double 53 1024 s 5000) (537109375 # 10000000) /\
   getVError 53 1024 s 5000 = 53).
Proof.
  intros H1 H2. unfold getVError, VError_double. rewrite H1, H2.
  repeat split; try (eexists; split; [vm_compute; reflexivity | reflexivity]);
    vm_compute; reflexivity.
Qed.

(** ** C strings and number parsing *)

Lemma stops_replicate k : stops (replicate k NUL).
Proof. destruct k; simpl; auto. Qed.

Lemma cstr_app_stops p z : stops z -> cstr (p ++ z) = cstr p.
Proof.
  intros Hz. induction p as [|c p IH]; simpl.
  - destruct z as [|c z]; simpl in *; [reflexivity | now subst].
  - destruct (Ascii.eqb c NUL); [reflexivity | now rewrite IH].
Qed.

Lemma digits_app_stops p z acc : stops z -> digits acc (p ++ z) = digits acc p.
Proof.
  intros Hz. revert acc. induction p as [|c p IH]; intros acc; simpl.
  - destruct z as [|c z]; simpl in *; [reflexivity | now subst].
  - destruct (isdigit c); [apply IH | reflexivity].
Qed.

Lemma signed_digits_app_stops p z :
  stops z -> signed_digits (p ++ z) = signed_digits p.
Proof.
  intros Hz. destruct p as [|c p].
  - destruct z as [|c z]; simpl in *; [reflexivity | now subst].
  - cbn [app]. unfold signed_digits.
    pose proof (digits_app_stops (c :: p) z 0 Hz) as H0.
    pose proof (digits_app_stops p z 0 Hz) as H1.
    simpl app in H0. rewrite H0, H1. reflexivity.
Qed.

Lemma skip_space_app_stops p z :
  stops z -> skip_space (p ++ z) = skip_space p ++ z.
Proof.
  intros Hz. induction p as [|c p IH]; simpl.
  - destruct z as [|c z]; simpl in *; [reflexivity | now subst].
  - destruct (isspace c); [apply IH | reflexivity].
Qed.

Lemma atoi_app_stops p z : stops z -> atoi (p ++ z) = atoi p.
Proof.
  intros Hz. unfold atoi.
  now rewrite skip_space_app_stops, signed_digits_app_stops.
Qed.

Lemma atol_app_stops p z : stops z -> atol (p ++ z) = atol p.
Proof.
  intros Hz. unfold atol.
  now rewrite skip_space_app_stops, signed_digits_app_stops.
Qed.

Lemma length_cstr s : (length (cstr s) <= length s)%nat.
Proof.
  induction s as [|c s IH]; simpl; [lia|].
  destruct (Ascii.eqb c NUL); simpl; lia.
Qed.

(** ** The receive loop *)

Lemma with_serial_in_twice q q' d :
  with_serial_in q (with_serial_in q' d) = with_serial_in q d.
Proof. reflexivity. Qed.

Lemma store_fresh (pre : list ascii) (k : nat) (c : ascii) (d : device) :
  length pre = k -> (k < INPUT_SIZE)%nat ->
  store (pre ++ replicate (INPUT_SIZE - k) NUL) k c d =
  Next ((pre ++ [c]) ++ replicate (INPUT_SIZE - S k) NUL) d.
Proof.
  intros Hk Hlt. unfold store.
  rewrite length_app, length_replicate.
  destruct (Nat.ltb_spec k (length pre + (INPUT_SIZE - k))); [|lia].
  unfold ret. f_equal.
  rewrite insert_app_r_alt by lia.
  replace (k - length pre)%nat with 0%nat by lia.
  replace (INPUT_SIZE - k)%nat with (S (INPUT_SIZE - S k)) by lia.
  simpl. now rewrite <- app_assoc.
Qed.

(** The payload bytes go to [inputBytes[0..]] in order, as long as they fit. *)
Lemma read_frame_fits (p : list ascii) :
  forall (pre : list ascii) (k : nat) (cmd : ascii) (d : device),
    length pre = k -> (k + length p <= INPUT_SIZE)%nat -> serial_in d = p ->
    read_frame (length p) (S (S k)) cmd (pre ++ replicate (INPUT_SIZE - k) NUL) d =
    Next (S (S (k + length p)), cmd,
          (pre ++ p) ++ replicate (INPUT_SIZE - (k + length p)) NUL)
         (with_serial_in [] d).
Proof.
  induction p as [|c p IH]; intros pre k cmd d Hk Hfit Hin.
  - simpl. unfold ret. rewrite Nat.add_0_r, app_nil_r.
    destruct d; simpl in *; now subst.
  - simpl in *. unfold bind at 1. unfold Serial_read. rewrite Hin.
    unfold bind. rewrite store_fresh by lia.
    rewrite (IH (pre ++ [c]) (S k) cmd (with_serial_in p d)).
    + rewrite with_serial_in_twice.
      replace (S k + length p)%nat with (k + S (length p))%nat by lia.
      now rewrite <- !app_assoc.
    + rewrite length_app. simpl. lia.
    + lia.
    + reflexivity.
Qed.

(** A payload byte that does not fit is stored past the end of the buffer. *)
Lemma read_frame_overflows (p : list ascii) :
  forall (pre : list ascii) (k : nat) (cmd : ascii) (d : device),
    length pre = k -> (k <= INPUT_SIZE)%nat ->
    (INPUT_SIZE < k + length p)%nat -> serial_in d = p ->
    read_frame (length p) (S (S k)) cmd (pre ++ replicate (INPUT_SIZE - k) NUL) d =
    Crashed OutOfBounds.
Proof.
  induction p as [|c p IH]; intros pre k cmd d Hk Hle Hover Hin.
  - simpl in Hover. lia.
  - simpl in *. unfold bind at 1. unfold Serial_read. rewrite Hin.
    destruct (Nat.eq_dec k INPUT_SIZE) as [Heq|Hne].
    + unfold bind, store. rewrite length_app, length_replicate.
      destruct (Nat.ltb_spec k (length pre + (INPUT_SIZE - k))); [lia|].
      reflexivity.
    + unfold bind. rewrite store_fresh by lia.
      apply (IH (pre ++ [c]) (S k) cmd (with_serial_in p d)).
      * rewrite length_app. simpl. lia.
      * lia.
      * lia.
      * reflexivity.
Qed.

(** ** Parsing a frame *)

Section ProtocolFacts.

Variables prec emax : Z.
Variable reset : device -> device.
Variable analogRead : Z -> nat -> Z.

Abbreviation body := (serParseCommand_body prec emax reset analogRead).
Abbreviation exec := (dispatch prec emax reset analogRead).
Abbreviation parse := (serParseCommand prec emax reset analogRead).

Lemma bind_Next {A B} (m : M A) (k : A -> M B) (d d' : device) (a : A) :
  m d = Next a d' -> bind m k d = k a d'.
Proof. intros H. unfold bind. now rewrite H. Qed.

Lemma bind_Returned {A B} (m : M A) (k : A -> M B) (d d' : device) :
  m d = Returned d' -> bind m k d = Returned d'.
Proof. intros H. unfold bind. now rewrite H. Qed.

Lemma bind_Crashed {A B} (m : M A) (k : A -> M B) (d : device) (f : fault) :
  m d = Crashed f -> bind m k d = Crashed f.
Proof. intros H. unfold bind. now rewrite H. Qed.

(** Entry of [serParseCommand] with [n + 1] bytes waiting. *)
Lemma body_enter (aref : Z) (d : device) (n : nat) :
  length (serial_in d) = S n ->
  body aref d =
  (r <- read_frame (S n) 0 NUL (replicate INPUT_SIZE NUL) ;;
   let '(i, cmd, inputBytes) := r in
   inputBytes <- store inputBytes i NUL ;;
   exec aref cmd inputBytes ;;;
   saveSettings) d.
Proof.
  intros Hn. unfold serParseCommand_body.
  rewrite (bind_Next _ _ d d (S n)) by (unfold Serial_available; now rewrite Hn).
  cbn [Nat.eqb].
  rewrite (bind_Next _ _ d d (S n)) by (unfold Serial_available; now rewrite Hn).
  reflexivity.
Qed.

Lemma loop_frame (c : ascii) (payload : list ascii) (d : device) :
  serial_in d = "#"%char :: c :: payload ->
  read_frame (S (S (length payload))) 0 NUL (replicate INPUT_SIZE NUL) d =
  read_frame (length payload) 2 c (replicate INPUT_SIZE NUL)
    (with_serial_in payload d).
Proof.
  intros Hin. cbn [read_frame].
  rewrite (bind_Next _ _ d (with_serial_in (c :: payload) d) "#"%char)
    by (unfold Serial_read; now rewrite Hin).
  rewrite Ascii.eqb_refl. cbn [negb].
  now rewrite (bind_Next _ _ _ (with_serial_in payload d) c).
Qed.

Lemma store_terminator (payload : list ascii) (i : nat) (d : device) :
  (length payload <= i < INPUT_SIZE)%nat ->
  store (padded payload) i NUL d = Next (padded payload) d.
Proof.
  intros Hi. unfold store, padded.
  rewrite length_app, length_replicate.
  destruct (Nat.ltb_spec i (length payload + (INPUT_SIZE - length payload)));
    [|lia].
  unfold ret. f_equal. apply list_insert_id.
  rewrite lookup_app_r by lia. apply lookup_replicate_2. lia.
Qed.

(** A frame [# cmd payload] of at most 59 bytes is received whole: the
    command is dispatched on the NUL-padded payload with the queue empty,
    and [saveSettings] follows unless the dispatch returns. *)
Lemma body_frame (aref : Z) (c : ascii) (payload : list ascii) (d : device) :
  serial_in d = "#"%char :: c :: payload ->
  (length payload <= 57)%nat ->
  body aref d =
  (exec aref c (padded payload) ;;; saveSettings) (with_serial_in [] d).
Proof.
  intros Hin Hlen.
  rewrite (body_enter aref d (S (length payload))) by now rewrite Hin.
  pose proof (read_frame_fits payload [] 0 c (with_serial_in payload d)
                eq_refl ltac:(unfold INPUT_SIZE; simpl; lia) eq_refl) as Hloop.
  cbn [app Nat.sub Nat.add] in Hloop.
  rewrite with_serial_in_twice in Hloop. fold (padded payload) in Hloop.
  erewrite bind_Next by (rewrite (loop_frame c payload d Hin); exact Hloop).
  cbn beta iota.
  erewrite bind_Next by (apply store_terminator; unfold INPUT_SIZE; lia).
  reflexivity.
Qed.

(** The frame that is only the marker: no command byte, no payload. *)
Lemma body_marker_only (aref : Z) (d : device) :
  serial_in d = ["#"%char] ->
  body aref d =
  (exec aref NUL (padded []) ;;; saveSettings) (with_serial_in [] d).
Proof.
  intros Hin.
  rewrite (body_enter aref d 0) by now rewrite Hin.
  erewrite bind_Next.
  2:{ cbn [read_frame].
      rewrite (bind_Next _ _ d (with_serial_in [] d) "#"%char)
        by (unfold Serial_read; now rewrite Hin).
      rewrite Ascii.eqb_refl. reflexivity. }
  cbn beta iota.
  erewrite bind_Next
    by (apply (store_terminator [] 1); unfold INPUT_SIZE; simpl; lia).
  reflexivity.
Qed.

(** A frame of 60 bytes or more makes the function store past the end of
    [inputBytes]. *)
Lemma body_overflow (aref : Z) (c : ascii) (payload : list ascii) (d : device) :
  serial_in d = "#"%char :: c :: payload ->
  (58 <= length payload)%nat ->
  body aref d = Crashed OutOfBounds.
Proof.
  intros Hin Hlen.
  rewrite (body_enter aref d (S (length payload))) by now rewrite Hin.
  destruct (le_lt_dec (length payload) INPUT_SIZE) as [Hfit|Hover].
  - pose proof (read_frame_fits payload [] 0 c (with_serial_in payload d)
                  eq_refl ltac:(simpl; lia) eq_refl) as Hloop.
    cbn [app Nat.sub Nat.add] in Hloop.
    erewrite bind_Next by (rewrite (loop_frame c payload d Hin); exact Hloop).
    cbn beta iota. apply bind_Crashed. unfold store.
    rewrite length_app, length_replicate.
    destruct (Nat.ltb_spec (S (S (length payload)))
                (length payload + (INPUT_SIZE - length payload)));
      [unfold INPUT_SIZE in *; lia | reflexivity].
  - apply bind_Crashed. rewrite (loop_frame c payload d Hin).
    apply (read_frame_overflows payload [] 0 c (with_serial_in payload d));
      simpl; auto; lia.
Qed.

(** A batch that does not start with the marker costs its first byte. *)
Lemma body_no_marker (aref : Z) (c : ascii) (rest : list ascii) (d : device) :
  serial_in d = c :: rest -> c <> "#"%char ->
  body aref d = Returned (with_serial_in rest d).
Proof.
  intros Hin Hc.
  rewrite (body_enter aref d (length rest)) by now rewrite Hin.
  apply bind_Returned. cbn [read_frame].
  rewrite (bind_Next _ _ d (with_serial_in rest d) c)
    by (unfold Serial_read; now rewrite Hin).
  apply Ascii.eqb_neq in Hc. now rewrite Hc.
Qed.

Lemma body_idle (aref : Z) (d : device) :
  serial_in d = [] -> body aref d = Returned d.
Proof.
  intros Hin. unfold serParseCommand_body, bind, Serial_available.
  rewrite Hin. reflexivity.
Qed.

End ProtocolFacts.

(** ** Dispatch *)

Lemma string_app_assoc (a b c : string) :
  ((a ++ b) ++ c = a ++ (b ++ c))%string.
Proof. induction a as [|x a IH]; simpl; [reflexivity | now rewrite IH]. Qed.

Lemma printed_printed (a b : string) (d : device) :
  printed b (printed a d) = printed (a ++ b) d.
Proof. unfold printed, with_serial_out. simpl. now rewrite string_app_assoc. Qed.

(** A value, a label before it and a unit after it, ending the line. *)
Lemma echo_line (label value unit_ : string) (d : device) :
  (Serial_print label ;;; Serial_print value ;;; Serial_println unit_) d =
  Next tt (printed (label ++ value ++ unit_ ++ CRLF) d).
Proof.
  unfold bind, Serial_println, Serial_print, modify.
  now rewrite !printed_printed.
Qed.

Lemma echo_line_after (f : device -> device) (label value unit_ : string)
    (d : device) :
  (modify f ;;; Serial_print label ;;; Serial_print value ;;;
   Serial_println unit_) d =
  Next tt (printed (label ++ value ++ unit_ ++ CRLF) (f d)).
Proof. unfold bind at 1. unfold modify at 1. apply echo_line. Qed.

Lemma not_in_eqb (c x : ascii) (l : list ascii) :
  ~ In c l -> In x l -> Ascii.eqb c x = false.
Proof. intros Hc Hx. apply Ascii.eqb_neq. intros ->. now apply Hc. Qed.

(** Resolves the tests of [dispatch] on a command byte that is known, or
    known to be outside a list of command bytes. *)
Ltac settle_tests H :=
  repeat match goal with
    | |- context [Ascii.eqb ?a ?b] =>
        first
          [ rewrite (not_in_eqb a b _ H) by (vm_compute; tauto)
          | let v := eval vm_compute in (Ascii.eqb a b) in
            match v with
            | true => change (Ascii.eqb a b) with true
            | false => change (Ascii.eqb a b) with false
            end ];
        cbv iota
    end.

Section DispatchFacts.

Variables prec emax : Z.
Variable reset : device -> device.
Variable analogRead : Z -> nat -> Z.
Variable aref : Z.

Abbreviation exec' := (dispatch prec emax reset analogRead aref).

(** A negative number leaves the function before anything is done, for
    every command byte that reaches the [atoi] branch. *)
Lemma exec_negative (c : ascii) (buf : list ascii) (d : device) :
  ~ In c text_commands -> atoi buf < 0 -> exec' c buf d = Returned d.
Proof.
  intros Hc Hneg. unfold dispatch. settle_tests Hc. cbv zeta.
  destruct (Z.ltb_spec (atoi buf) 0); [reflexivity | lia].
Qed.

Lemma exec_unknown (c : ascii) (buf : list ascii) (d : device) :
  ~ In c known_commands -> 0 <= atoi buf -> exec' c buf d = Next tt d.
Proof.
  intros Hc Hpos. unfold dispatch. settle_tests Hc. cbv zeta.
  destruct (Z.ltb_spec (atoi buf) 0); [lia | reflexivity].
Qed.

Lemma exec_period (buf : list ascii) (d : device) :
  0 <= atoi buf ->
  exec' "P" buf d =
  Next tt (printed ("@period: " ++ decimal (atoi buf) ++ "ms" ++ CRLF)
             (with_settings (set_period (atoi buf)) d)).
Proof.
  intros Hpos. unfold dispatch. settle_tests I. cbv zeta.
  destruct (Z.ltb_spec (atoi buf) 0); [lia|].
  unfold bind at 1. unfold modify at 1. now rewrite echo_line.
Qed.

Lemma exec_switch (buf : list ascii) (d : device) :
  0 <= atoi buf ->
  exec' "S" buf d =
  Next tt
    (if 0 <? atoi buf
     then driven (relaypin (settings d)) HIGH (printed ("@switch: high" ++ CRLF) d)
     else driven (relaypin (settings d)) LOW (printed ("@switch: low" ++ CRLF) d)).
Proof.
  intros Hpos. unfold dispatch. settle_tests I. cbv zeta.
  destruct (Z.ltb_spec (atoi buf) 0); [lia|].
  unfold bind at 1.
  destruct (0 <? atoi buf); reflexivity.
Qed.

Lemma exec_feedid (buf : list ascii) (d : device) :
  exec' "F" buf d =
  Next tt (if 0 <=? atol buf then with_settings (set_feedid (atol buf)) d else d).
Proof.
  unfold dispatch. settle_tests I. cbv zeta.
  destruct (0 <=? atol buf); reflexivity.
Qed.

Lemma exec_apikey (buf : list ascii) (d : device) :
  exec' "K" buf d =
  Next tt (with_settings
             (set_apikey (<[48%nat := NUL]>
                            (strncpy (apikey (settings d)) buf APIKEY_SIZE))) d).
Proof. unfold dispatch. settle_tests I. reflexivity. Qed.

Lemma exec_feedsurl (buf : list ascii) (d : device) :
  exec' "U" buf d =
  Next tt (with_settings
             (set_feedsurl (<[59%nat := NUL]>
                              (strncpy (feedsurl (settings d)) buf FEEDSURL_SIZE))) d).
Proof. unfold dispatch. settle_tests I. reflexivity. Qed.

Lemma exec_reset (buf : list ascii) (d : device) :
  exec' "R" buf d = Next tt (reset (printed ("@reset" ++ CRLF) d)).
Proof. unfold dispatch. settle_tests I. reflexivity. Qed.

(** Calibration and the dump write to the serial port only (and to
    [settings.offset]); neither reads the queue nor writes the EEPROM. *)
Lemma exec_calibrate (buf : list ascii) (d : device) :
  exists d1, exec' "T" buf d = Next tt d1 /\
             eeprom d1 = eeprom d /\ serial_in d1 = serial_in d.
Proof.
  unfold dispatch. settle_tests I.
  eexists. split; [reflexivity | split; reflexivity].
Qed.

Lemma exec_dump (buf : list ascii) (d : device) :
  terminated (magic (settings d)) = true ->
  exists d1, exec' "Z" buf d = Next tt d1 /\
             settings d1 = settings d /\
             eeprom d1 = eeprom d /\ serial_in d1 = serial_in d.
Proof.
  intros Hmagic. unfold dispatch. settle_tests I.
  unfold dumpSettings. unfold bind at 1. cbv beta iota.
  unfold Serial_println_chars. rewrite Hmagic.
  eexists. split; [reflexivity | repeat split; reflexivity].
Qed.

(** Every command byte of the [atoi] branch falls through to the end of
    the chain when the number is not negative, and none writes the EEPROM. *)
Lemma exec_nonnegative (c : ascii) (buf : list ascii) (d : device) :
  ~ In c text_commands -> 0 <= atoi buf ->
  exists d1, exec' c buf d = Next tt d1 /\ eeprom d1 = eeprom d.
Proof.
  intros Hc Hpos. unfold dispatch. settle_tests Hc. cbv zeta.
  destruct (Z.ltb_spec (atoi buf) 0); [lia|].
  repeat match goal with
    | |- context [Ascii.eqb c ?x] => destruct (Ascii.eqb c x)
    end;
    try rewrite echo_line_after;
    try (eexists; split; [reflexivity | reflexivity]).
  unfold bind at 1.
  destruct (0 <? atoi buf); eexists; (split; [reflexivity | reflexivity]).
Qed.

End DispatchFacts.

(** ** The command protocol, frame by frame *)

Lemma atoi_padded (payload : list ascii) : atoi (padded payload) = atoi payload.
Proof. apply atoi_app_stops, stops_replicate. Qed.

Lemma atol_padded (payload : list ascii) : atol (padded payload) = atol payload.
Proof. apply atol_app_stops, stops_replicate. Qed.

Lemma cstr_padded (payload : list ascii) : cstr (padded payload) = cstr payload.
Proof. apply cstr_app_stops, stops_replicate. Qed.

Lemma numeric_not_text (c : ascii) : In c numeric_commands -> ~ In c text_commands.
Proof.
  unfold numeric_commands, text_commands. simpl.
  intros [<-|[<-|[<-|[<-|[<-|[<-|[]]]]]]] H;
    repeat (destruct H as [H|H]; [discriminate H|]); exact H.
Qed.

(** Truncating copy: [strncpy] of [n + 1] bytes followed by a NUL stored at
    index [n] leaves the first [n] bytes of the string and NUL after them. *)
Lemma truncating_copy (n : nat) :
  forall l : list ascii,
    <[n := NUL]> (take (S n) l ++ replicate (S n - length (take (S n) l)) NUL) =
    take n l ++ replicate (S n - length (take n l)) NUL.
Proof.
  induction n as [|n IH]; intros [|x l].
  - reflexivity.
  - reflexivity.
  - change (take (S (S n)) []) with (@nil ascii).
    change (take (S n) []) with (@nil ascii).
    cbn [app length Nat.sub]. apply insert_replicate.
  - cbn [take app length Nat.sub]. cbn [take] in IH.
    change (<[S n:=NUL]> (x :: ?t)) with (x :: <[n:=NUL]> t).
    now rewrite IH.
Qed.

Section Frames.

Variables prec emax : Z.
Variable reset : device -> device.
Variable analogRead : Z -> nat -> Z.
Variable aref : Z.

Abbreviation parse' := (serParseCommand prec emax reset analogRead aref).
Abbreviation run' := (dispatch prec emax reset analogRead aref).

Lemma fits_buffer_length (payload : list ascii) :
  fits_buffer payload -> (length payload <= 57)%nat.
Proof. unfold fits_buffer, INPUT_SIZE. lia. Qed.

(** A dispatch that falls through is followed by [saveSettings]. *)
Lemma parse_saved (c : ascii) (payload : list ascii) (d d1 : device) :
  serial_in d = "#"%char :: c :: payload -> fits_buffer payload ->
  run' c (padded payload) (with_serial_in [] d) = Next tt d1 ->
  parse' d = Done (saved d1).
Proof.
  intros Hin Hfit Hrun. unfold serParseCommand, call.
  rewrite (body_frame _ _ _ _ aref c payload d Hin (fits_buffer_length _ Hfit)).
  now rewrite (bind_Next _ _ _ d1 tt Hrun).
Qed.

(** A dispatch that returns is not. *)
Lemma parse_returned (c : ascii) (payload : list ascii) (d d1 : device) :
  serial_in d = "#"%char :: c :: payload -> fits_buffer payload ->
  run' c (padded payload) (with_serial_in [] d) = Returned d1 ->
  parse' d = Done d1.
Proof.
  intros Hin Hfit Hrun. unfold serParseCommand, call.
  rewrite (body_frame _ _ _ _ aref c payload d Hin (fits_buffer_length _ Hfit)).
  now rewrite (bind_Returned _ _ _ d1 Hrun).
Qed.

Lemma parse_negative (c : ascii) (payload : list ascii) (d : device) :
  serial_in d = "#"%char :: c :: payload -> fits_buffer payload ->
  ~ In c text_commands -> atoi payload < 0 ->
  parse' d = Done (with_serial_in [] d).
Proof.
  intros Hin Hfit Hc Hneg. apply (parse_returned c payload); auto.
  apply exec_negative; [exact Hc | now rewrite atoi_padded].
Qed.

Lemma parse_overflow (c : ascii) (payload : list ascii) (d : device) :
  serial_in d = "#"%char :: c :: payload -> (58 <= length payload)%nat ->
  parse' d = Undefined OutOfBounds.
Proof.
  intros Hin Hlen. unfold serParseCommand, call.
  now rewrite (body_overflow _ _ _ _ aref c payload d Hin Hlen).
Qed.

End Frames.

(** ** The claims about [serParseCommand] *)

Section Claims.

Variables prec emax : Z.
Variable reset : device -> device.
Variable analogRead : Z -> nat -> Z.
Variable aref : Z.

Abbreviation serParse := (serParseCommand prec emax reset analogRead aref).

(** C1, amended.  For a frame that fits the input buffer: when the command
    is one of P, A, B, C, D, S and the payload parses to a negative [int],
    nothing but the receive queue changes, and [saveSettings] is not called;
    when the command is F and the payload parses to a negative [long], the
    settings are unchanged as well, but [saveSettings] is called on them.
    The frame [#P-5] leaves the period alone; [#P50] sets it to 50, echoes
    it and saves it. *)
Theorem negative_payload_rejected (d : device) (c : ascii) (payload : list ascii) :
  serial_in d = "#"%char :: c :: payload -> fits_buffer payload ->
  (In c numeric_commands -> atoi payload < 0 ->
   serParse d = Done (with_serial_in [] d)) /\
  (c = "F"%char -> atol payload < 0 ->
   serParse d = Done (saved (with_serial_in [] d))) /\
  (c = "P"%char -> payload = list_ascii_of_string "-5" ->
   serParse d = Done (with_serial_in [] d)) /\
  (c = "P"%char -> payload = list_ascii_of_string "50" ->
   serParse d =
   Done (saved (printed ("@period: 50ms" ++ CRLF)
                  (with_settings (set_period 50) (with_serial_in [] d))))).
Proof.
  intros Hin Hfit. split; [|split; [|split]].
  - intros Hc Hneg. apply (parse_negative _ _ _ _ _ c payload); auto.
    now apply numeric_not_text.
  - intros -> Hneg. apply (parse_saved _ _ _ _ _ "F"%char payload _ _ Hin Hfit).
    rewrite exec_feedid, atol_padded.
    destruct (Z.leb_spec 0 (atol payload)); [lia | reflexivity].
  - intros -> ->.
    apply (parse_negative _ _ _ _ _ "P"%char (list_ascii_of_string "-5")); auto.
    + vm_compute. intuition discriminate.
    + reflexivity.
  - intros -> ->.
    apply (parse_saved _ _ _ _ _ "P"%char (list_ascii_of_string "50") _ _ Hin Hfit).
    rewrite exec_period by (rewrite atoi_padded; vm_compute; discriminate).
    rewrite atoi_padded. reflexivity.
Qed.

(** C2, amended.  For a frame that fits the input buffer, [saveSettings] is
    called once, as the last action, after the commands R, Z (with a
    terminated magic tag), T, F, K and U, and after every other command byte
    when the payload parses to a number that is not negative; for R it
    follows whatever [reset] did.  When another command byte comes with a
    negative number, [saveSettings] is not called.  The frame that is only
    the marker is saved as well. *)
Theorem save_follows_dispatch :
  (forall (d : device) (c : ascii) (payload : list ascii),
     serial_in d = "#"%char :: c :: payload -> fits_buffer payload ->
     (c = "R"%char ->
      serParse d =
      Done (saved (reset (printed ("@reset" ++ CRLF) (with_serial_in [] d))))) /\
     (c = "Z"%char -> terminated (magic (settings d)) = true ->
      exists d1, serParse d = Done (saved d1) /\ eeprom d1 = eeprom d) /\
     (In c (list_ascii_of_string "TFKU") ->
      exists d1, serParse d = Done (saved d1) /\ eeprom d1 = eeprom d) /\
     (~ In c text_commands -> 0 <= atoi payload ->
      exists d1, serParse d = Done (saved d1) /\ eeprom d1 = eeprom d) /\
     (~ In c text_commands -> atoi payload < 0 ->
      serParse d = Done (with_serial_in [] d))) /\
  (forall d : device,
     serial_in d = ["#"%char] -> serParse d = Done (saved (with_serial_in [] d))).
Proof.
  split.
  - intros d c payload Hin Hfit. split; [|split; [|split; [|split]]].
    + intros ->. apply (parse_saved _ _ _ _ _ "R"%char payload _ _ Hin Hfit).
      apply exec_reset.
    + intros -> Hmagic.
      destruct (exec_dump prec emax reset analogRead aref (padded payload)
                  (with_serial_in [] d) Hmagic) as (d1 & Hrun & _ & Hee & _).
      exists d1. split; [|exact Hee].
      now apply (parse_saved _ _ _ _ _ "Z"%char payload).
    + intros [<-|[<-|[<-|[<-|[]]]]].
      * destruct (exec_calibrate prec emax reset analogRead aref (padded payload)
                    (with_serial_in [] d)) as (d1 & Hrun & Hee & _).
        exists d1. split; [|exact Hee].
        now apply (parse_saved _ _ _ _ _ "T"%char payload).
      * eexists. split.
        -- apply (parse_saved _ _ _ _ _ "F"%char payload _ _ Hin Hfit).
           apply exec_feedid.
        -- destruct (0 <=? atol (padded payload)); reflexivity.
      * eexists. split.
        -- apply (parse_saved _ _ _ _ _ "K"%char payload _ _ Hin Hfit).
           apply exec_apikey.
        -- reflexivity.
      * eexists. split.
        -- apply (parse_saved _ _ _ _ _ "U"%char payload _ _ Hin Hfit).
           apply exec_feedsurl.
        -- reflexivity.
    + intros Hc Hpos.
      destruct (exec_nonnegative prec emax reset analogRead aref c
                  (padded payload) (with_serial_in [] d) Hc
                  ltac:(now rewrite atoi_padded)) as (d1 & Hrun & Hee).
      exists d1. split; [|exact Hee].
      now apply (parse_saved _ _ _ _ _ c payload).
    + intros Hc Hneg. now apply (parse_negative _ _ _ _ _ c payload).
  - intros d Hin. unfold serParseCommand, call.
    rewrite (body_marker_only _ _ _ _ aref d Hin).
    rewrite (bind_Next _ _ _ (with_serial_in [] d) tt); [reflexivity|].
    apply exec_unknown; [vm_compute; intuition discriminate | vm_compute; discriminate].
Qed.

(** C3, amended.  When the first waiting byte is not the marker, the call
    takes that one byte off the queue and returns: the rest of the batch
    stays queued, no command is dispatched, the settings, the EEPROM and the
    pins are unchanged and nothing is written to the serial port. *)
Theorem no_marker_drops_one_byte (d : device) (c : ascii) (rest : list ascii) :
  serial_in d = c :: rest -> c <> "#"%char ->
  serParse d = Done (with_serial_in rest d).
Proof.
  intros Hin Hc. unfold serParseCommand, call.
  now rewrite (body_no_marker _ _ _ _ aref c rest d Hin Hc).
Qed.

(** C4.  A K frame with a payload of at most 57 bytes is handled inside all
    arrays and leaves in [apikey] the first 48 characters of the payload,
    NUL after them, 49 bytes in all.  With a payload of 58 bytes or more,
    [serParseCommand] stores past the end of [inputBytes]: the claim that
    all stores stay in bounds fails there. *)
Theorem apikey_frame_bounds (d : device) (payload : list ascii) :
  serial_in d = "#"%char :: "K"%char :: payload ->
  (fits_buffer payload -> length (apikey (settings d)) = APIKEY_SIZE ->
   exists d',
     serParse d = Done d' /\
     apikey (settings d') =
       take 48 (cstr payload) ++
       replicate (APIKEY_SIZE - length (take 48 (cstr payload))) NUL /\
     length (apikey (settings d')) = APIKEY_SIZE) /\
  ((58 <= length payload)%nat -> serParse d = Undefined OutOfBounds).
Proof.
  intros Hin. split.
  - intros Hfit Hcap.
    assert (Hkey :
      <[48%nat := NUL]>
        (strncpy (apikey (settings d)) (padded payload) APIKEY_SIZE) =
      take 48 (cstr payload) ++
      replicate (APIKEY_SIZE - length (take 48 (cstr payload))) NUL).
    { unfold strncpy. rewrite cstr_padded.
      rewrite drop_ge by (rewrite Hcap; lia). rewrite app_nil_r.
      apply (truncating_copy 48). }
    eexists. split; [|split].
    + eapply (parse_saved _ _ _ _ _ "K"%char payload _ _ Hin Hfit).
      apply exec_apikey.
    + cbn [settings saved with_eeprom with_settings set_apikey apikey with_serial_in].
      exact Hkey.
    + cbn [settings saved with_eeprom with_settings set_apikey apikey with_serial_in].
      rewrite Hkey, length_app, length_replicate, length_take.
      unfold APIKEY_SIZE. lia.
  - intros Hlen. now apply (parse_overflow _ _ _ _ _ "K"%char payload).
Qed.

(** C5, amended.  For an S frame that fits the input buffer: a number above
    zero drives the relay pin high and echoes "@switch: high"; zero drives
    it low and echoes "@switch: low"; both are followed by [saveSettings].
    A negative number is rejected like for the other commands: the pin is
    not driven and nothing is echoed or saved. *)
Theorem switch_command (d : device) (payload : list ascii) :
  serial_in d = "#"%char :: "S"%char :: payload -> fits_buffer payload ->
  (0 < atoi payload ->
   serParse d =
   Done (saved (driven (relaypin (settings d)) HIGH
                  (printed ("@switch: high" ++ CRLF) (with_serial_in [] d))))) /\
  (atoi payload = 0 ->
   serParse d =
   Done (saved (driven (relaypin (settings d)) LOW
                  (printed ("@switch: low" ++ CRLF) (with_serial_in [] d))))) /\
  (atoi payload < 0 -> serParse d = Done (with_serial_in [] d)).
Proof.
  intros Hin Hfit. split; [|split].
  - intros Hpos. apply (parse_saved _ _ _ _ _ "S"%char payload _ _ Hin Hfit).
    rewrite exec_switch by (rewrite atoi_padded; lia). rewrite atoi_padded.
    destruct (Z.ltb_spec 0 (atoi payload)); [reflexivity | lia].
  - intros Hzero. apply (parse_saved _ _ _ _ _ "S"%char payload _ _ Hin Hfit).
    rewrite exec_switch by (rewrite atoi_padded; lia). rewrite atoi_padded.
    destruct (Z.ltb_spec 0 (atoi payload)); [lia | reflexivity].
  - intros Hneg. apply (parse_negative _ _ _ _ _ "S"%char payload); auto.
    vm_compute. intuition discriminate.
Qed.

(** C9, amended.  For a P frame that fits the input buffer and whose payload
    parses to 0 under [atoi], the period becomes 0, "@period: 0ms" is echoed
    and [saveSettings] is called on the zeroed period.  The empty payload
    parses to 0, and so does every payload whose first character is neither
    a digit, a sign nor white space. *)
Theorem zero_period :
  (forall (d : device) (payload : list ascii),
     serial_in d = "#"%char :: "P"%char :: payload -> fits_buffer payload ->
     atoi payload = 0 ->
     serParse d =
     Done (saved (printed ("@period: 0ms" ++ CRLF)
                    (with_settings (set_period 0) (with_serial_in [] d))))) /\
  atoi [] = 0 /\
  (forall (c : ascii) (rest : list ascii),
     isdigit c = false -> c <> "-"%char -> c <> "+"%char -> isspace c = false ->
     atoi (c :: rest) = 0).
Proof.
  split; [|split].
  - intros d payload Hin Hfit Hzero.
    apply (parse_saved _ _ _ _ _ "P"%char payload _ _ Hin Hfit).
    rewrite exec_period by (rewrite atoi_padded; lia).
    rewrite atoi_padded, Hzero. reflexivity.
  - reflexivity.
  - intros c rest Hd Hm Hp Hs. unfold atoi. cbn [skip_space]. rewrite Hs.
    unfold signed_digits.
    apply Ascii.eqb_neq in Hm, Hp. rewrite Hm, Hp.
    cbn [digits]. rewrite Hd. reflexivity.
Qed.

(** C10.  For a frame whose command byte is none of R, Z, T, F, K, U, P, A,
    B, C, D, S: when the frame fits the input buffer, the settings are
    unchanged and nothing is written to the serial port, whatever the
    payload; [saveSettings] is still called on the unchanged record when the
    payload parses to a number that is not negative, and is not called when
    it parses to a negative number.  With a payload of 58 bytes or more the
    call stores past the end of [inputBytes] before it looks at the command
    byte, and the claim fails there. *)
Theorem unknown_command_frame (d : device) (c : ascii) (payload : list ascii) :
  serial_in d = "#"%char :: c :: payload ->
  ~ In c known_commands ->
  (fits_buffer payload ->
   exists d',
     serParse d = Done d' /\
     settings d' = settings d /\
     serial_out d' = serial_out d /\
     pins d' = pins d /\
     (0 <= atoi payload -> eeprom d' = settings d :: eeprom d) /\
     (atoi payload < 0 -> eeprom d' = eeprom d)) /\
  ((58 <= length payload)%nat -> serParse d = Undefined OutOfBounds).
Proof.
  intros Hin Hc. split.
  - intros Hfit.
    assert (Htext : ~ In c text_commands).
    { intros H. apply Hc. unfold known_commands. apply in_or_app. now left. }
    destruct (Z.lt_ge_cases (atoi payload) 0) as [Hneg|Hpos].
    + exists (with_serial_in [] d). split.
      * now apply (parse_negative _ _ _ _ _ c payload).
      * repeat split; try reflexivity; intros; lia.
    + exists (saved (with_serial_in [] d)). split.
      * apply (parse_saved _ _ _ _ _ c payload _ _ Hin Hfit).
        apply exec_unknown; [exact Hc | now rewrite atoi_padded].
      * repeat split; try reflexivity; intros; lia.
  - intros Hlen. now apply (parse_overflow _ _ _ _ _ c payload).
Qed.

End Claims.

(** ** Runs on the bench *)

Ltac fits := unfold fits_buffer, INPUT_SIZE; simpl; lia.

(** C1: the frames [#P-5], [#F-5] and [#P50] on the bench. *)
Lemma negative_payload_rejected_witness :
  bench_run "#P-5" = Done (with_serial_in [] (bench "#P-5")) /\
  bench_run "#F-5" = Done (saved (with_serial_in [] (bench "#F-5"))) /\
  bench_run "#P50" =
    Done (saved (printed ("@period: 50ms" ++ CRLF)
                   (with_settings (set_period 50)
                      (with_serial_in [] (bench "#P50"))))).
Proof.
  split; [|split].
  - apply (negative_payload_rejected 24 128 bench_reset bench_adc DEFAULT_AREF
             (bench "#P-5") "P"%char (list_ascii_of_string "-5")
             eq_refl ltac:(fits)).
    + vm_compute. tauto.
    + reflexivity.
  - apply (negative_payload_rejected 24 128 bench_reset bench_adc DEFAULT_AREF
             (bench "#F-5") "F"%char (list_ascii_of_string "-5")
             eq_refl ltac:(fits)).
    + reflexivity.
    + reflexivity.
  - apply (negative_payload_rejected 24 128 bench_reset bench_adc DEFAULT_AREF
             (bench "#P50") "P"%char (list_ascii_of_string "50")
             eq_refl ltac:(fits)); reflexivity.
Defined.

(** C1 as stated fails on [#F-5]: the payload parses to a negative number,
    the settings are unchanged, and yet the record is written to the
    EEPROM. *)
Lemma feedid_negative_still_saved :
  atol (list_ascii_of_string "-5") < 0 /\
  exists d',
    bench_run "#F-5" = Done d' /\
    settings d' = settings (bench "#F-5") /\
    eeprom (bench "#F-5") = [] /\
    eeprom d' = [bench_settings].
Proof.
  split; [reflexivity|].
  eexists. split; [vm_compute; reflexivity|].
  repeat split.
Qed.

(** C2: one frame for each way to the end of the dispatch. *)
Lemma save_follows_dispatch_witness :
  bench_run "#R" =
    Done (saved (bench_reset (printed ("@reset" ++ CRLF)
                                (with_serial_in [] (bench "#R"))))) /\
  (exists d1, bench_run "#Z" = Done (saved d1) /\ eeprom d1 = []) /\
  (exists d1, bench_run "#T" = Done (saved d1) /\ eeprom d1 = []) /\
  (exists d1, bench_run "#A220" = Done (saved d1) /\ eeprom d1 = []) /\
  bench_run "#A-220" = Done (with_serial_in [] (bench "#A-220")) /\
  bench_run "#" = Done (saved (with_serial_in [] (bench "#"))).
Proof.
  pose proof (save_follows_dispatch 24 128 bench_reset bench_adc DEFAULT_AREF)
    as [Hframe Hmarker].
  split; [|split; [|split; [|split; [|split]]]].
  - destruct (Hframe (bench "#R") "R"%char [] eq_refl ltac:(fits))
      as (H & _).
    apply H. reflexivity.
  - destruct (Hframe (bench "#Z") "Z"%char [] eq_refl ltac:(fits))
      as (_ & H & _).
    apply H; reflexivity.
  - destruct (Hframe (bench "#T") "T"%char [] eq_refl ltac:(fits))
      as (_ & _ & H & _).
    apply H. vm_compute. tauto.
  - destruct (Hframe (bench "#A220") "A"%char (list_ascii_of_string "220")
                eq_refl ltac:(fits)) as (_ & _ & _ & H & _).
    apply H.
    + vm_compute. intuition discriminate.
    + vm_compute. discriminate.
  - destruct (Hframe (bench "#A-220") "A"%char (list_ascii_of_string "-220")
                eq_refl ltac:(fits)) as (_ & _ & _ & _ & H).
    apply H.
    + vm_compute. intuition discriminate.
    + reflexivity.
  - apply Hmarker. reflexivity.
Defined.

(** C2 as stated fails on [#P-5]: the frame starts with the marker and is
    parsed, and nothing is written to the EEPROM. *)
Lemma negative_period_not_saved :
  exists d',
    bench_run "#P-5" = Done d' /\
    eeprom d' = eeprom (bench "#P-5") /\
    forall d1, d' <> saved d1.
Proof.
  eexists. split; [vm_compute; reflexivity|].
  split; [reflexivity|].
  intros d1 H. apply (f_equal eeprom) in H. discriminate H.
Qed.

(** C3: the batch [XP50] on the bench. *)
Lemma no_marker_drops_one_byte_witness :
  bench_run "XP50" =
  Done (with_serial_in (list_ascii_of_string "P50") (bench "XP50")).
Proof.
  apply (no_marker_drops_one_byte 24 128 bench_reset bench_adc DEFAULT_AREF
           (bench "XP50") "X"%char (list_ascii_of_string "P50") eq_refl).
  discriminate.
Defined.

(** C3 as stated fails on [XP50]: three of the four bytes are still queued
    after the call. *)
Lemma batch_not_discarded :
  exists d',
    bench_run "XP50" = Done d' /\
    serial_in d' = list_ascii_of_string "P50" /\
    serial_in d' <> [].
Proof.
  eexists. split; [vm_compute; reflexivity|].
  split; [reflexivity | discriminate].
Qed.

(** C4: a key of 52 characters is cut to 48; a frame of 60 bytes and the
    frame with a payload of 70 characters overflow [inputBytes]. *)
Lemma apikey_frame_bounds_witness :
  (exists d',
     bench_run "#K0123456789abcdefghijklmnopqrstuvwxyzABCDEFGHIJKLMNOP" = Done d' /\
     apikey (settings d') =
       list_ascii_of_string "0123456789abcdefghijklmnopqrstuvwxyzABCDEFGHIJKL"
       ++ [NUL]) /\
  bench_run "#K0123456789012345678901234567890123456789012345678901234567"
    = Undefined OutOfBounds /\
  bench_run
    "#K0123456789012345678901234567890123456789012345678901234567890123456789"
    = Undefined OutOfBounds.
Proof.
  split; [|split].
  - destruct (proj1 (apikey_frame_bounds 24 128 bench_reset bench_adc DEFAULT_AREF
                       (bench "#K0123456789abcdefghijklmnopqrstuvwxyzABCDEFGHIJKLMNOP")
                       _ eq_refl) ltac:(fits) eq_refl) as (d' & Hrun & Hkey & _).
    exists d'. split; [exact Hrun | exact Hkey].
  - apply (apikey_frame_bounds 24 128 bench_reset bench_adc DEFAULT_AREF
             (bench "#K0123456789012345678901234567890123456789012345678901234567")
             _ eq_refl).
    simpl. lia.
  - apply (apikey_frame_bounds 24 128 bench_reset bench_adc DEFAULT_AREF
             (bench "#K0123456789012345678901234567890123456789012345678901234567890123456789")
             _ eq_refl).
    simpl. lia.
Defined.

(** C5: the frames [#S1], [#S0] and [#S-1] on the bench, whose relay is on
    pin 2. *)
Lemma switch_command_witness :
  bench_run "#S1" =
    Done (saved (driven 2 HIGH (printed ("@switch: high" ++ CRLF)
                                  (with_serial_in [] (bench "#S1"))))) /\
  bench_run "#S0" =
    Done (saved (driven 2 LOW (printed ("@switch: low" ++ CRLF)
                                 (with_serial_in [] (bench "#S0"))))) /\
  bench_run "#S-1" = Done (with_serial_in [] (bench "#S-1")).
Proof.
  split; [|split].
  - destruct (switch_command 24 128 bench_reset bench_adc DEFAULT_AREF
                (bench "#S1") (list_ascii_of_string "1") eq_refl ltac:(fits))
      as (H & _).
    apply H. reflexivity.
  - destruct (switch_command 24 128 bench_reset bench_adc DEFAULT_AREF
                (bench "#S0") (list_ascii_of_string "0") eq_refl ltac:(fits))
      as (_ & H & _).
    apply H. reflexivity.
  - destruct (switch_command 24 128 bench_reset bench_adc DEFAULT_AREF
                (bench "#S-1") (list_ascii_of_string "-1") eq_refl ltac:(fits))
      as (_ & _ & H).
    apply H. reflexivity.
Defined.

(** C5 as stated fails on [#S-1]: the number is negative, the relay pin is
    not driven at all and nothing is echoed. *)
Lemma negative_switch_not_driven :
  atoi (list_ascii_of_string "-1") < 0 /\
  exists d',
    bench_run "#S-1" = Done d' /\
    pins d' = [] /\
    serial_out d' = ""%string.
Proof.
  split; [reflexivity|].
  eexists. split; [vm_compute; reflexivity|].
  split; reflexivity.
Qed.

(** C9: the frame [#P] with the empty payload and the frame [#Pms] on the
    bench, and a payload that starts with a letter. *)
Lemma zero_period_witness :
  bench_run "#P" =
    Done (saved (printed ("@period: 0ms" ++ CRLF)
                   (with_settings (set_period 0)
                      (with_serial_in [] (bench "#P"))))) /\
  bench_run "#Pms" =
    Done (saved (printed ("@period: 0ms" ++ CRLF)
                   (with_settings (set_period 0)
                      (with_serial_in [] (bench "#Pms"))))) /\
  atoi (list_ascii_of_string "ms") = 0.
Proof.
  destruct (zero_period 24 128 bench_reset bench_adc DEFAULT_AREF)
    as (Hframe & _ & Hfirst).
  split; [|split].
  - apply (Hframe (bench "#P") [] eq_refl ltac:(fits)). reflexivity.
  - apply (Hframe (bench "#Pms") (list_ascii_of_string "ms") eq_refl ltac:(fits)).
    reflexivity.
  - apply (Hfirst "m"%char ["s"%char]); (reflexivity || discriminate).
Defined.

(** C9 as stated fails on [#P 7]: the payload starts with a blank, not with
    a digit or a sign, and the period becomes 7, not 0. *)
Lemma leading_blank_is_skipped :
  isdigit " " = false /\ " "%char <> "-"%char /\ " "%char <> "+"%char /\
  atoi (list_ascii_of_string " 7") = 7 /\
  exists d',
    bench_run "#P 7" = Done d' /\
    period (settings d') = 7 /\
    serial_out d' = ("@period: 7ms" ++ CRLF)%string.
Proof.
  split; [reflexivity|]. split; [discriminate|]. split; [discriminate|].
  split; [reflexivity|].
  eexists. split; [vm_compute; reflexivity|].
  split; reflexivity.
Qed.

(** C10: the frames [#X12] and [#X-3] on the bench, and an X frame of 60
    bytes. *)
Lemma unknown_command_frame_witness :
  (exists d',
     bench_run "#X12" = Done d' /\
     settings d' = bench_settings /\ serial_out d' = ""%string /\
     eeprom d' = [bench_settings]) /\
  (exists d',
     bench_run "#X-3" = Done d' /\
     settings d' = bench_settings /\ serial_out d' = ""%string /\
     eeprom d' = []) /\
  bench_run "#X0123456789012345678901234567890123456789012345678901234567"
    = Undefined OutOfBounds.
Proof.
  split; [|split].
  - destruct (proj1 (unknown_command_frame 24 128 bench_reset bench_adc
                       DEFAULT_AREF (bench "#X12") "X"%char
                       (list_ascii_of_string "12") eq_refl
                       ltac:(vm_compute; intuition discriminate))
                ltac:(fits))
      as (d' & Hrun & Hset & Hout & _ & Hsave & _).
    exists d'. repeat split; auto. apply Hsave. vm_compute. discriminate.
  - destruct (proj1 (unknown_command_frame 24 128 bench_reset bench_adc
                       DEFAULT_AREF (bench "#X-3") "X"%char
                       (list_ascii_of_string "-3") eq_refl
                       ltac:(vm_compute; intuition discriminate))
                ltac:(fits))
      as (d' & Hrun & Hset & Hout & _ & _ & Hkeep).
    exists d'. repeat split; auto. apply Hkeep. reflexivity.
  - apply (unknown_command_frame 24 128 bench_reset bench_adc DEFAULT_AREF
             (bench "#X0123456789012345678901234567890123456789012345678901234567")
             "X"%char _ eq_refl).
    + vm_compute. intuition discriminate.
    + simpl. lia.
Defined.

(** C8: the calibration of the bench has [r1 = 100] and [r2 = 10]. *)
Lemma vError_truncates_witness :
  getVError 24 128 bench_settings 5000 = 53 /\
  getVError 53 1024 bench_settings 5000 = 53.
Proof.
  destruct (vError_truncates bench_settings eq_refl eq_refl)
    as ((_ & _ & H32) & (_ & _ & H64)).
  split; [exact H32 | exact H64].
Defined.

(** * Further properties of the code *)

(** ** Unit converter: zero readings and the sign of the power *)

Section MoreFloatFacts.

Variables prec emax : Z.

Lemma fmul_zero_or_nan (x y : spec_float) :
  zero_or_nan x -> zero_or_nan (fmul prec emax x y).
Proof. destruct x as [sx|sx| |sx mx ex], y as [sy|sy| |sy my ey]; simpl; tauto. Qed.

Lemma fdiv_zero_or_nan (x y : spec_float) :
  zero_or_nan x -> zero_or_nan (fdiv prec emax x y).
Proof. destruct x as [sx|sx| |sx mx ex], y as [sy|sy| |sy my ey]; simpl; tauto. Qed.

Lemma gt0_zero_or_nan (x : spec_float) : zero_or_nan x -> gt0 x = false.
Proof. destruct x as [sx|sx| |sx mx ex]; simpl; tauto. Qed.

Lemma gt0_unsigned (x : spec_float) : gt0 x = true -> unsigned_class x.
Proof. destruct x as [[]|[]| |[] mx ex]; simpl; intros H; easy. Qed.

(** A product of two values with a clear sign bit has a clear sign bit,
    unless it is [0 * inf], which is NaN. *)
Lemma fmul_unsigned (x y : spec_float) :
  unsigned_class x -> unsigned_class y ->
  unsigned_class (fmul prec emax x y) \/
  (fmul prec emax x y = S754_nan /\
   ((x = S754_zero false /\ y = S754_infinity false) \/
    (x = S754_infinity false /\ y = S754_zero false))).
Proof.
  destruct x as [sx|sx| |sx mx ex], y as [sy|sy| |sy my ey]; simpl;
    intros Hx Hy; subst; try tauto; try (left; reflexivity).
  left. apply binary_round_aux_unsigned. lia.
Qed.

Lemma getAvgVoltage_unsigned (m1000 : positive) (e1000 : Z) s v aref :
  of_int prec emax 1000 = S754_finite false m1000 e1000 ->
  unsigned_class (getAvgVoltage prec emax s v aref).
Proof.
  intros thousand. unfold getAvgVoltage.
  match goal with |- context [gt0 ?o] => destruct (gt0 o) eqn:Hpos end.
  - rewrite thousand. apply fdiv_unsigned, Hpos.
  - reflexivity.
Qed.

Lemma getAvgCurrent_unsigned s v aref :
  unsigned_class (getAvgCurrent prec emax s v aref).
Proof.
  unfold getAvgCurrent.
  match goal with |- context [gt0 ?o] => destruct (gt0 o) eqn:Hpos end.
  - apply gt0_unsigned, Hpos.
  - reflexivity.
Qed.

Lemma getAvgVoltage_of_zero_or_nan s v aref :
  zero_or_nan v -> getAvgVoltage prec emax s v aref = S754_zero false.
Proof.
  intros Hv. unfold getAvgVoltage.
  rewrite gt0_zero_or_nan; [reflexivity|].
  now apply fdiv_zero_or_nan, fmul_zero_or_nan, fmul_zero_or_nan.
Qed.

End MoreFloatFacts.

(** X1.  A raw reading of zero (of either sign), and a reading that is not a
    number, give exactly 0 V for every reference voltage and every
    calibration, [r2 = 0] included, in every floating-point format. *)
Theorem zero_reading_zero_volts (prec emax : Z) (s : settings_t) (aref : Z)
    (sign : bool) :
  getAvgVoltage prec emax s (S754_zero sign) aref = S754_zero false /\
  getAvgVoltage prec emax s S754_nan aref = S754_zero false.
Proof. split; now apply getAvgVoltage_of_zero_or_nan. Qed.

(** X2.  [getAvgPower] is never negative, but it can be NaN although both
    factors are not: exactly when one of voltage and current is zero and the
    other infinite, which a calibration with [r2 = 0] produces.  Stated for
    avr-gcc's 32-bit [double]. *)
Theorem power_sign (s : settings_t) (v i : spec_float) (aref : Z) :
  (unsigned_class (getAvgPower 24 128 s v i aref) \/
   (getAvgPower 24 128 s v i aref = S754_nan /\
    ((getAvgVoltage 24 128 s v aref = S754_zero false /\
      getAvgCurrent 24 128 s i aref = S754_infinity false) \/
     (getAvgVoltage 24 128 s v aref = S754_infinity false /\
      getAvgCurrent 24 128 s i aref = S754_zero false)))) /\
  getAvgPower 24 128 (set_r2 0 bench_settings)
    (of_int 24 128 512) (of_int 24 128 0) 5000 = S754_nan.
Proof.
  split.
  - unfold getAvgPower. apply fmul_unsigned.
    + eapply getAvgVoltage_unsigned. reflexivity.
    + apply getAvgCurrent_unsigned.
  - vm_compute. reflexivity.
Qed.

(** ** Calibration: the sum of the samples *)

Lemma wrap32_range z : LONG_MIN <= wrap32 z <= LONG_MAX.
Proof.
  unfold wrap32, wrap, LONG_MIN, LONG_MAX.
  pose proof (Z.mod_pos_bound (z + 2 ^ (32 - 1)) (2 ^ 32) ltac:(lia)). lia.
Qed.

Section SampleSum.

Variable analogRead : Z -> nat -> Z.
Variable pin : Z.

(** Every read is a 10-bit sample. *)
Hypothesis ten_bits : forall k, 0 <= analogRead pin k <= 1023.

Lemma total_bounds (n k : nat) :
  0 <= total analogRead pin n k <= 1023 * Z.of_nat n.
Proof.
  revert k. induction n as [|n IH]; intros k.
  - simpl. lia.
  - cbn [total]. specialize (IH (S k)). pose proof (ten_bits k). lia.
Qed.

Lemma sample_sum_total (n : nat) :
  forall (k : nat) (value : Z),
    0 <= value -> value + 1023 * Z.of_nat n <= LONG_MAX ->
    sample_sum analogRead n k pin value = value + total analogRead pin n k.
Proof.
  induction n as [|n IH]; intros k value Hlo Hhi.
  - simpl. lia.
  - cbn [sample_sum total]. pose proof (ten_bits k) as Hk.
    rewrite (wrap16_small (analogRead pin k))
      by (unfold INT_MIN, INT_MAX; lia).
    rewrite wrap32_small by (unfold LONG_MIN, LONG_MAX in *; lia).
    rewrite IH by lia. lia.
Qed.

End SampleSum.

(** ** Every branch of the dispatch *)

Section Branches.

Variables prec emax : Z.
Variable reset : device -> device.
Variable analogRead : Z -> nat -> Z.
Variable aref : Z.

Abbreviation act := (dispatch prec emax reset analogRead aref).

Lemma dumpSettings_text (d : device) :
  terminated (magic (settings d)) = true ->
  dumpSettings d = Next tt (printed (dump_text (settings d)) d).
Proof.
  intros Hmagic. unfold dumpSettings, Serial_println_chars.
  unfold bind at 1. cbv beta iota. rewrite Hmagic.
  unfold Serial_println, Serial_print, bind, modify. cbv beta iota.
  rewrite !printed_printed. unfold dump_text.
  rewrite !string_app_assoc. reflexivity.
Qed.

Lemma dumpSettings_unterminated (d : device) :
  terminated (magic (settings d)) = false ->
  dumpSettings d = Crashed Unterminated.
Proof.
  intros Hmagic. unfold dumpSettings, Serial_println_chars.
  unfold bind at 1. cbv beta iota. rewrite Hmagic. reflexivity.
Qed.

Lemma act_dump (buf : list ascii) (d : device) :
  act "Z" buf d = dumpSettings d.
Proof. unfold dispatch. settle_tests I. reflexivity. Qed.

Lemma act_calibrate (buf : list ascii) (d : device) :
  act "T" buf d =
  let v := calibrated prec emax analogRead aref (currentpin (settings d)) in
  Next tt (with_settings (set_offset (wrap16 v))
             (printed ("@offset: " ++ decimal v ++ CRLF) d)).
Proof.
  unfold dispatch. settle_tests I. unfold calibrate, calibrated.
  cbv zeta. unfold bind at 1. unfold Serial_print at 1, modify at 1.
  unfold bind at 1. unfold Serial_println, Serial_print at 1, modify at 1.
  unfold modify. now rewrite printed_printed.
Qed.

Lemma act_r1 (buf : list ascii) (d : device) :
  0 <= atoi buf ->
  act "A" buf d =
  Next tt (printed ("R1: " ++ decimal (atoi buf) ++ " Kohm" ++ CRLF)
             (with_settings (set_r1 (atoi buf)) d)).
Proof.
  intros Hpos. unfold dispatch. settle_tests I. cbv zeta.
  destruct (Z.ltb_spec (atoi buf) 0); [lia|]. apply echo_line_after.
Qed.

Lemma act_r2 (buf : list ascii) (d : device) :
  0 <= atoi buf ->
  act "B" buf d =
  Next tt (printed ("R2: " ++ decimal (atoi buf) ++ " Kohm" ++ CRLF)
             (with_settings (set_r2 (atoi buf)) d)).
Proof.
  intros Hpos. unfold dispatch. settle_tests I. cbv zeta.
  destruct (Z.ltb_spec (atoi buf) 0); [lia|]. apply echo_line_after.
Qed.

Lemma act_offset (buf : list ascii) (d : device) :
  0 <= atoi buf ->
  act "C" buf d =
  Next tt (printed ("Offeset: " ++ decimal (atoi buf) ++ " mV" ++ CRLF)
             (with_settings (set_offset (atoi buf)) d)).
Proof.
  intros Hpos. unfold dispatch. settle_tests I. cbv zeta.
  destruct (Z.ltb_spec (atoi buf) 0); [lia|]. apply echo_line_after.
Qed.

Lemma act_sensitivity (buf : list ascii) (d : device) :
  0 <= atoi buf ->
  act "D" buf d =
  Next tt (printed ("Sensitivity: " ++ decimal (atoi buf) ++ " mV/A" ++ CRLF)
             (with_settings (set_sensitivity (atoi buf)) d)).
Proof.
  intros Hpos. unfold dispatch. settle_tests I. cbv zeta.
  destruct (Z.ltb_spec (atoi buf) 0); [lia|]. apply echo_line_after.
Qed.

End Branches.

(** ** Every call of [serParseCommand] *)

Section Calls.

Variables prec emax : Z.
Variable reset : device -> device.
Variable analogRead : Z -> nat -> Z.
Variable aref : Z.

Abbreviation handle := (serParseCommand prec emax reset analogRead aref).
Abbreviation branch := (dispatch prec emax reset analogRead aref).

(** The four ways through the receive code. *)
Lemma handle_cases (d : device) :
  match serial_in d with
  | [] => handle d = Done d
  | c :: rest =>
      if Ascii.eqb c "#" then
        if (length rest <=? 58)%nat then
          handle d =
          call (branch (frame_command (serial_in d)) (frame_buffer (serial_in d))
                ;;; saveSettings)
               (with_serial_in [] d)
        else handle d = Undefined OutOfBounds
      else handle d = Done (with_serial_in rest d)
  end.
Proof.
  destruct (serial_in d) as [|c rest] eqn:Hin.
  - unfold serParseCommand, call. now rewrite body_idle.
  - destruct (Ascii.eqb c "#") eqn:Hc.
    + apply Ascii.eqb_eq in Hc. subst c.
      destruct rest as [|c payload].
      * cbn [length Nat.leb]. unfold serParseCommand, call.
        now rewrite (body_marker_only _ _ _ _ aref d Hin).
      * cbn [length]. destruct (Nat.leb_spec (S (length payload)) 58).
        -- unfold serParseCommand, call.
           now rewrite (body_frame _ _ _ _ aref c payload d Hin) by lia.
        -- unfold serParseCommand, call.
           now rewrite (body_overflow _ _ _ _ aref c payload d Hin) by lia.
    + apply Ascii.eqb_neq in Hc. unfold serParseCommand, call.
      now rewrite (body_no_marker _ _ _ _ aref c rest d Hin Hc).
Qed.

Lemma atoi_range (buf : list ascii) : INT_MIN <= atoi buf <= INT_MAX.
Proof. apply wrap16_range. Qed.

Lemma atol_range (buf : list ascii) : LONG_MIN <= atol buf <= LONG_MAX.
Proof. apply wrap32_range. Qed.

Lemma length_strncpy (dst src : list ascii) (n : nat) :
  length dst = n -> length (strncpy dst src n) = n.
Proof.
  intros Hdst. unfold strncpy.
  rewrite !length_app, length_replicate, length_drop, length_take. lia.
Qed.

Lemma terminated_insert (l : list ascii) (i : nat) :
  (i < length l)%nat -> terminated (<[i := NUL]> l) = true.
Proof.
  intros Hi. unfold terminated. apply existsb_exists. exists NUL. split.
  - apply list_elem_of_In, list_elem_of_lookup. exists i.
    now apply list_lookup_insert_eq.
  - reflexivity.
Qed.

Lemma string_app_nil (a : string) : (a ++ "")%string = a.
Proof. induction a as [|x a IH]; simpl; [reflexivity | now rewrite IH]. Qed.

Ltac effect_done :=
  unfold branch_effect;
  cbn [eeprom serial_in serial_out pins settings printed with_settings
       with_serial_out driven with_pins fixed_fields magic revision relaypin
       currentpin voltagepin set_period set_r1 set_r2 set_offset
       set_sensitivity set_apikey set_feedid set_feedsurl];
  split; [reflexivity|];
  split; [reflexivity|];
  split; [first [ eexists; reflexivity
                | eexists; symmetry; apply string_app_nil ]|];
  split; [try (left; reflexivity) | split; [reflexivity|]].

Ltac ok_done :=
  unfold settings_ok;
  cbn [magic apikey feedsurl period r1 r2 offset sensitivity feedid
       set_period set_r1 set_r2 set_offset set_sensitivity set_apikey
       set_feedid set_feedsurl];
  intros (Hm & Hka & Hkt & Hua & Hut & Hp & H1 & H2 & Ho & Hs & Hf);
  unfold INT_MIN, INT_MAX, LONG_MIN, LONG_MAX in *;
  repeat split; try assumption; try lia.

Lemma branch_footprint (c : ascii) (buf : list ascii) (d : device) :
  c <> "R"%char ->
  match branch c buf d with
  | Next _ d1 => branch_effect c d d1
  | Returned d1 => d1 = d
  | Crashed f => f = Unterminated
  end.
Proof.
  intros HR.
  pose proof (atoi_range buf) as Hi. pose proof (atol_range buf) as Hl.
  unfold INT_MIN, INT_MAX, LONG_MIN, LONG_MAX in *.
  destruct (in_dec ascii_dec c known_commands) as [Hin|Hout].
  - unfold known_commands, text_commands, numeric_commands in Hin.
    simpl in Hin.
    destruct Hin as [<-|[<-|[<-|[<-|[<-|[<-|[<-|[<-|[<-|[<-|[<-|[<-|[]]]]]]]]]]]]].
    + now contradiction HR.
    + rewrite act_dump.
      destruct (terminated (magic (settings d))) eqn:Hmagic.
      * rewrite dumpSettings_text by assumption. effect_done. auto.
      * now rewrite dumpSettings_unterminated.
    + rewrite act_calibrate.
      set (v := calibrated _ _ _ _ _). clearbody v. cbv zeta.
      pose proof (wrap16_range v). unfold INT_MIN, INT_MAX in *.
      effect_done. ok_done.
    + rewrite exec_feedid. destruct (Z.leb_spec 0 (atol buf)).
      * effect_done. ok_done.
      * effect_done. auto.
    + rewrite exec_apikey. effect_done. ok_done.
      * rewrite length_insert. now apply length_strncpy.
      * apply terminated_insert. rewrite length_strncpy by assumption.
        unfold APIKEY_SIZE. lia.
    + rewrite exec_feedsurl. effect_done. ok_done.
      * rewrite length_insert. now apply length_strncpy.
      * apply terminated_insert. rewrite length_strncpy by assumption.
        unfold FEEDSURL_SIZE. lia.
    + destruct (Z.lt_ge_cases (atoi buf) 0).
      * rewrite exec_negative; [reflexivity | vm_compute; intuition discriminate | lia].
      * rewrite exec_period by lia. effect_done. ok_done.
    + destruct (Z.lt_ge_cases (atoi buf) 0).
      * rewrite exec_negative; [reflexivity | vm_compute; intuition discriminate | lia].
      * rewrite act_r1 by lia. effect_done. ok_done.
    + destruct (Z.lt_ge_cases (atoi buf) 0).
      * rewrite exec_negative; [reflexivity | vm_compute; intuition discriminate | lia].
      * rewrite act_r2 by lia. effect_done. ok_done.
    + destruct (Z.lt_ge_cases (atoi buf) 0).
      * rewrite exec_negative; [reflexivity | vm_compute; intuition discriminate | lia].
      * rewrite act_offset by lia. effect_done. ok_done.
    + destruct (Z.lt_ge_cases (atoi buf) 0).
      * rewrite exec_negative; [reflexivity | vm_compute; intuition discriminate | lia].
      * rewrite act_sensitivity by lia. effect_done. ok_done.
    + destruct (Z.lt_ge_cases (atoi buf) 0).
      * rewrite exec_negative; [reflexivity | vm_compute; intuition discriminate | lia].
      * rewrite exec_switch by lia.
        destruct (0 <? atoi buf); effect_done;
          try (right; eexists; split; reflexivity); auto.
  - destruct (Z.lt_ge_cases (atoi buf) 0).
    + rewrite exec_negative; [reflexivity | | lia].
      intros H'. apply Hout. unfold known_commands. apply in_or_app. now left.
    + rewrite exec_unknown by (assumption || lia). effect_done. auto.
Qed.

(** The calls that return, sorted by what they did. *)
Lemma handle_done (d d' : device) :
  handle d = Done d' ->
  (serial_in d = [] /\ d' = d) \/
  (exists c rest,
     serial_in d = c :: rest /\ c <> "#"%char /\ d' = with_serial_in rest d) \/
  (hd_error (serial_in d) = Some "#"%char /\
   (length (serial_in d) <= 59)%nat /\
   ((frame_command (serial_in d) = "R"%char /\
     d' = saved (reset (printed ("@reset" ++ CRLF) (with_serial_in [] d)))) \/
    (frame_command (serial_in d) <> "R"%char /\
     (d' = with_serial_in [] d \/
      exists d1,
        branch_effect (frame_command (serial_in d)) (with_serial_in [] d) d1 /\
        d' = saved d1)))).
Proof.
  intros Hrun. pose proof (handle_cases d) as H.
  destruct (serial_in d) as [|c rest] eqn:Hin.
  - left. split; [reflexivity|]. congruence.
  - right. destruct (Ascii.eqb c "#") eqn:Hc.
    + right. apply Ascii.eqb_eq in Hc. subst c.
      destruct (Nat.leb_spec (length rest) 58) as [Hlen|Hlen];
        [|congruence].
      split; [reflexivity|]. split; [simpl; lia|].
      rewrite H in Hrun. clear H. unfold call, bind in Hrun.
      set (c := frame_command _) in *. set (buf := frame_buffer _) in *.
      destruct (ascii_dec c "R") as [HR|HR].
      * left. split; [exact HR|]. rewrite HR, exec_reset in Hrun.
        unfold saveSettings, modify in Hrun. congruence.
      * right. split; [exact HR|].
        pose proof (branch_footprint c buf (with_serial_in [] d) HR) as Hfoot.
        destruct (branch c buf (with_serial_in [] d)) as [[] d1|d1|f].
        -- right. exists d1. split; [exact Hfoot|].
           unfold saveSettings, modify in Hrun. congruence.
        -- left. congruence.
        -- discriminate Hrun.
    + left. exists c, rest. apply Ascii.eqb_neq in Hc.
      repeat split; [exact Hc | congruence].
Qed.

(** A call crashes on a store past the buffer only through the receive
    code: no branch of the dispatch does. *)
Lemma handle_overflow_only_long (d : device) :
  handle d = Undefined OutOfBounds ->
  hd_error (serial_in d) = Some "#"%char /\ (60 <= length (serial_in d))%nat.
Proof.
  intros Hrun. pose proof (handle_cases d) as H.
  destruct (serial_in d) as [|c rest] eqn:Hin; [congruence|].
  destruct (Ascii.eqb c "#") eqn:Hc; [|congruence].
  apply Ascii.eqb_eq in Hc. subst c.
  destruct (Nat.leb_spec (length rest) 58) as [Hlen|Hlen].
  - exfalso. rewrite H in Hrun. clear H. unfold call, bind in Hrun.
    set (c := frame_command _) in *. set (buf := frame_buffer _) in *.
    destruct (ascii_dec c "R") as [HR|HR].
    + rewrite HR, exec_reset in Hrun. discriminate Hrun.
    + pose proof (branch_footprint c buf (with_serial_in [] d) HR) as Hfoot.
      destruct (branch c buf (with_serial_in [] d)) as [[] d1|d1|f];
        try discriminate Hrun.
      subst f. discriminate Hrun.
  - split; [reflexivity | simpl; lia].
Qed.

End Calls.

(** ** Further properties of [serParseCommand] *)

Section Protocol.

Variables prec emax : Z.
Variable reset : device -> device.
Variable analogRead : Z -> nat -> Z.
Variable aref : Z.

Abbreviation serve := (serParseCommand prec emax reset analogRead aref).

(** X3.  With no byte waiting on the serial port a call does nothing at all:
    no output, no change of the settings, no write to the EEPROM. *)
Theorem idle_call_does_nothing (d : device) :
  serial_in d = [] -> serve d = Done d.
Proof.
  intros Hin. pose proof (handle_cases prec emax reset analogRead aref d) as H.
  now rewrite Hin in H.
Qed.

(** X4.  Bytes in front of a frame that are not the marker cost one call
    each and have no other effect: after as many calls as there are such
    bytes, the rest of the batch is still queued untouched, and the call
    after them is the call on that rest. *)
Theorem stray_bytes_cost_a_call_each (junk rest : list ascii) :
  Forall (fun c => c <> "#"%char) junk ->
  forall d : device,
    serial_in d = junk ++ rest ->
    calls serve (length junk) d = Done (with_serial_in rest d) /\
    calls serve (S (length junk)) d = calls serve 1 (with_serial_in rest d).
Proof.
  intros Hjunk. induction Hjunk as [|c junk Hc _ IH]; intros d Hin.
  - assert (Hd : with_serial_in rest d = d) by (destruct d; simpl in *; now subst).
    rewrite Hd. split; reflexivity.
  - pose proof (handle_cases prec emax reset analogRead aref d) as H.
    rewrite Hin in H. cbn [app] in H.
    apply Ascii.eqb_neq in Hc. rewrite Hc in H.
    destruct (IH (with_serial_in (junk ++ rest) d) eq_refl) as [IH1 IH2].
    rewrite with_serial_in_twice in IH1, IH2. split.
    + cbn [length calls]. rewrite H. exact IH1.
    + change (calls serve (S (length (c :: junk))) d)
        with (match serve d with
              | Done d' => calls serve (S (length junk)) d'
              | Undefined f => Undefined f
              end).
      rewrite H. exact IH2.
Qed.

(** X5.  A call stores past the end of [inputBytes] exactly when the batch
    starts with the marker and has 60 bytes or more; every other batch is
    handled without such a store, whatever the command. *)
Theorem overflow_exactly_on_long_frames (d : device) :
  serve d = Undefined OutOfBounds <->
  hd_error (serial_in d) = Some "#"%char /\ (60 <= length (serial_in d))%nat.
Proof.
  split.
  - apply handle_overflow_only_long.
  - intros [Hhd Hlen].
    pose proof (handle_cases prec emax reset analogRead aref d) as H.
    destruct (serial_in d) as [|c rest]; [discriminate Hhd|].
    injection Hhd as ->. cbn [length] in Hlen. rewrite Ascii.eqb_refl in H.
    destruct (Nat.leb_spec (length rest) 58); [lia | exact H].
Qed.

(** X6.  A frame P, A, B, C or D that fits the input buffer and carries a
    number that is not negative stores the number in [period], [r1], [r2],
    [offset] or [sensitivity], echoes it with the label and unit of the
    command, and saves the record. *)
Theorem numeric_commands_set_their_field (d : device) (c : ascii)
    (payload : list ascii) :
  serial_in d = "#"%char :: c :: payload -> fits_buffer payload ->
  0 <= atoi payload ->
  let v := atoi payload in
  let d0 := with_serial_in [] d in
  (c = "P"%char ->
   serve d = Done (saved (printed ("@period: " ++ decimal v ++ "ms" ++ CRLF)
                            (with_settings (set_period v) d0)))) /\
  (c = "A"%char ->
   serve d = Done (saved (printed ("R1: " ++ decimal v ++ " Kohm" ++ CRLF)
                            (with_settings (set_r1 v) d0)))) /\
  (c = "B"%char ->
   serve d = Done (saved (printed ("R2: " ++ decimal v ++ " Kohm" ++ CRLF)
                            (with_settings (set_r2 v) d0)))) /\
  (c = "C"%char ->
   serve d = Done (saved (printed ("Offeset: " ++ decimal v ++ " mV" ++ CRLF)
                            (with_settings (set_offset v) d0)))) /\
  (c = "D"%char ->
   serve d = Done (saved (printed ("Sensitivity: " ++ decimal v ++ " mV/A" ++ CRLF)
                            (with_settings (set_sensitivity v) d0)))).
Proof.
  intros Hin Hfit Hpos v d0.
  assert (Hbuf : 0 <= atoi (padded payload)) by now rewrite atoi_padded.
  split; [|split; [|split; [|split]]]; intros ->;
    apply (parse_saved _ _ _ _ _ _ payload _ _ Hin Hfit);
    [ rewrite exec_period by exact Hbuf
    | rewrite act_r1 by exact Hbuf
    | rewrite act_r2 by exact Hbuf
    | rewrite act_offset by exact Hbuf
    | rewrite act_sensitivity by exact Hbuf ];
    now rewrite atoi_padded.
Qed.

(** X7.  A frame F that fits the input buffer and carries a number that is
    not negative as a [long] stores it in [feedid], echoes nothing and saves
    the record: the feed identifier has the range of [long], not of [int]
    like the other numbers. *)
Theorem feedid_command (d : device) (payload : list ascii) :
  serial_in d = "#"%char :: "F"%char :: payload -> fits_buffer payload ->
  0 <= atol payload ->
  serve d =
    Done (saved (with_settings (set_feedid (atol payload)) (with_serial_in [] d))) /\
  0 <= atol payload <= LONG_MAX.
Proof.
  intros Hin Hfit Hpos. split.
  - apply (parse_saved _ _ _ _ _ "F"%char payload _ _ Hin Hfit).
    rewrite exec_feedid, atol_padded.
    destruct (Z.leb_spec 0 (atol payload)); [reflexivity | lia].
  - pose proof (atol_range payload). lia.
Qed.

(** X8.  A frame U that fits the input buffer stores its payload whole in
    [feedsurl], up to the first NUL of the payload, with NUL in all the
    bytes after it: a frame that can be received is too short for the cut at
    59 characters to happen.  The record is saved. *)
Theorem feedsurl_command (d : device) (payload : list ascii) :
  serial_in d = "#"%char :: "U"%char :: payload -> fits_buffer payload ->
  length (feedsurl (settings d)) = FEEDSURL_SIZE ->
  let url := cstr payload ++ replicate (FEEDSURL_SIZE - length (cstr payload)) NUL in
  serve d = Done (saved (with_settings (set_feedsurl url) (with_serial_in [] d))) /\
  length url = FEEDSURL_SIZE /\
  cstr url = cstr payload.
Proof.
  intros Hin Hfit Hcap url.
  pose proof (length_cstr payload) as Hlen.
  pose proof (fits_buffer_length _ Hfit) as Hshort.
  assert (Hurl :
    <[59%nat := NUL]>
      (strncpy (feedsurl (settings d)) (padded payload) FEEDSURL_SIZE) = url).
  { unfold strncpy. rewrite cstr_padded.
    rewrite drop_ge by (rewrite Hcap; lia). rewrite app_nil_r.
    unfold FEEDSURL_SIZE. rewrite (truncating_copy 59).
    now rewrite take_ge by lia. }
  split; [|split].
  - apply (parse_saved _ _ _ _ _ "U"%char payload _ _ Hin Hfit).
    rewrite exec_feedsurl. cbn [settings with_serial_in]. now rewrite Hurl.
  - unfold url. rewrite length_app, length_replicate.
    unfold FEEDSURL_SIZE. lia.
  - unfold url. rewrite cstr_app_stops by apply stops_replicate.
    clear. induction payload as [|c p IH]; simpl; [reflexivity|].
    destruct (Ascii.eqb c NUL) eqn:Hc; simpl; [reflexivity|].
    now rewrite Hc, IH.
Qed.

(** X9.  The T frame, with samples of 10 bits: the sum of the 1000 reads
    is their exact sum, at most 1023000, so that the [long] accumulator does
    not wrap; the offset computed from it is echoed as a [long], stored
    reduced to 16 bits, and saved.  The payload plays no part. *)
Theorem calibration_command (d : device) (payload : list ascii) :
  serial_in d = "#"%char :: "T"%char :: payload -> fits_buffer payload ->
  (forall k, 0 <= analogRead (currentpin (settings d)) k <= 1023) ->
  let sum := total analogRead (currentpin (settings d)) 1000 0 in
  let v :=
    to_long (fdiv prec emax
               (fmul prec emax (of_int prec emax sum) (res prec emax aref))
               (of_int prec emax 1000)) in
  0 <= sum <= 1023000 /\
  serve d =
    Done (saved (with_settings (set_offset (wrap16 v))
                   (printed ("@offset: " ++ decimal v ++ CRLF)
                      (with_serial_in [] d)))).
Proof.
  intros Hin Hfit Hbits sum v.
  pose proof (total_bounds analogRead _ Hbits 1000 0) as Hsum.
  change (Z.of_nat 1000) with 1000 in Hsum. fold sum in Hsum.
  split; [lia|].
  apply (parse_saved _ _ _ _ _ "T"%char payload _ _ Hin Hfit).
  rewrite act_calibrate. cbv zeta. unfold calibrated.
  cbn [settings with_serial_in].
  rewrite (sample_sum_total analogRead _ Hbits 1000 0 0);
    [ | lia | change (Z.of_nat 1000) with 1000; unfold LONG_MAX; lia ].
  reflexivity.
Qed.

(** X10.  The Z frame prints the ten lines of the dump, in the order of the
    fields, changes no setting and saves the record; when the magic tag
    holds no NUL, the print of it runs off the array. *)
Theorem dump_command (d : device) (payload : list ascii) :
  serial_in d = "#"%char :: "Z"%char :: payload -> fits_buffer payload ->
  (terminated (magic (settings d)) = true ->
   serve d =
     Done (saved (printed (dump_text (settings d)) (with_serial_in [] d)))) /\
  (terminated (magic (settings d)) = false ->
   serve d = Undefined Unterminated).
Proof.
  intros Hin Hfit. split; intros Hmagic.
  - apply (parse_saved _ _ _ _ _ "Z"%char payload _ _ Hin Hfit).
    rewrite act_dump. exact (dumpSettings_text (with_serial_in [] d) Hmagic).
  - unfold serParseCommand, call.
    rewrite (body_frame _ _ _ _ aref "Z"%char payload d Hin
               (fits_buffer_length _ Hfit)).
    rewrite (bind_Crashed _ _ _ Unterminated); [reflexivity|].
    rewrite act_dump. exact (dumpSettings_unterminated (with_serial_in [] d) Hmagic).
Qed.

(** X11.  The shape of the record is an invariant of the protocol: if the
    arrays have their capacities, [apikey] and [feedsurl] hold a NUL, the
    numbers are in the range of their types and [period], [r1], [r2] and
    [sensitivity] are not negative, then the same holds after every call
    that returns, provided [reset] keeps it too. *)
Theorem settings_stay_well_formed (d d' : device) :
  settings_ok (settings d) ->
  (forall d0, settings_ok (settings d0) -> settings_ok (settings (reset d0))) ->
  serve d = Done d' ->
  settings_ok (settings d').
Proof.
  intros Hok Hreset Hrun.
  destruct (handle_done _ _ _ _ _ _ _ Hrun)
    as [[_ ->]|[(c & rest & _ & _ & ->)|(_ & _ & [[_ ->]|[_ [->|(d1 & He & ->)]]])]];
    try exact Hok.
  - apply Hreset. exact Hok.
  - destruct He as (_ & _ & _ & _ & _ & Hkeep). now apply Hkeep.
Qed.

(** X12.  Every path of [serParseCommand] that changes the settings ends in
    [saveSettings]: if the record in RAM is the one in the EEPROM before a
    call, it is after the call, and a [loadSettings] then changes nothing. *)
Theorem saved_record_stays_current (erased : settings_t) (d d' : device) :
  in_sync d -> serve d = Done d' ->
  in_sync d' /\ loadSettings erased d' = Next tt d'.
Proof.
  intros Hsync Hrun.
  assert (Hd' : in_sync d').
  { destruct (handle_done _ _ _ _ _ _ _ Hrun)
      as [[_ ->]|[(c & rest & _ & _ & ->)|(_ & _ & [[_ ->]|[_ [->|(d1 & _ & ->)]]])]];
      first [exact Hsync | reflexivity]. }
  split; [exact Hd'|].
  unfold loadSettings, modify, in_sync in *.
  destruct d' as [s q o e w]. cbn in *.
  destruct e as [|s' e]; [discriminate Hd'|].
  now injection Hd' as ->.
Qed.

(** X13.  What the protocol cannot do.  Whatever the batch, as long as the
    command is not R: the magic tag, the revision and the three pin numbers
    are never changed; text is only added to the serial output; no pin is
    driven except the relay pin by the S command; the EEPROM is written at
    most once, with the record as the call leaves it; and the call takes the
    whole batch off the queue when it starts with the marker and one byte
    otherwise. *)
Theorem commands_touch_only_their_own (d d' : device) :
  serve d = Done d' ->
  ~ (hd_error (serial_in d) = Some "#"%char /\
     frame_command (serial_in d) = "R"%char) ->
  fixed_fields (settings d') = fixed_fields (settings d) /\
  (exists t, serial_out d' = (serial_out d ++ t)%string) /\
  (pins d' = pins d \/
   exists level,
     frame_command (serial_in d) = "S"%char /\
     pins d' = (relaypin (settings d), level) :: pins d) /\
  (eeprom d' = eeprom d \/ eeprom d' = settings d' :: eeprom d) /\
  (serial_in d' = if Ascii.eqb (hd NUL (serial_in d)) "#" then []
                  else tl (serial_in d)).
Proof.
  intros Hrun HR.
  assert (Hsame : forall q,
            fixed_fields (settings (with_serial_in q d)) = fixed_fields (settings d) /\
            (exists t, serial_out (with_serial_in q d) = (serial_out d ++ t)%string) /\
            (pins (with_serial_in q d) = pins d \/
             exists level,
               frame_command (serial_in d) = "S"%char /\
               pins (with_serial_in q d) = (relaypin (settings d), level) :: pins d) /\
            (eeprom (with_serial_in q d) = eeprom d \/
             eeprom (with_serial_in q d) =
               settings (with_serial_in q d) :: eeprom d)).
  { intros q. repeat split; auto.
    exists ""%string. symmetry. apply string_app_nil. }
  destruct (handle_done _ _ _ _ _ _ _ Hrun)
    as [[Hin ->]|[(c & rest & Hin & Hc & ->)
                 |(Hhd & _ & [[Hcmd _]|[_ [->|(d1 & He & ->)]]])]].
  - rewrite Hin. cbn [hd tl]. change (Ascii.eqb NUL "#") with false.
    cbv iota. repeat split; auto.
    exists ""%string. symmetry. apply string_app_nil.
  - destruct (Hsame rest) as (H1 & H2 & H3 & H4).
    rewrite Hin. cbn [hd tl]. apply Ascii.eqb_neq in Hc. rewrite Hc.
    repeat split; auto.
  - exfalso. apply HR. now split.
  - destruct (Hsame []) as (H1 & H2 & H3 & H4).
    destruct (serial_in d) as [|c rest] eqn:Hin; [discriminate Hhd|].
    injection Hhd as ->. cbn [hd]. rewrite Ascii.eqb_refl.
    repeat split; auto.
  - destruct He as (Hee & Hq & Hout & Hpins & Hfix & _).
    cbn [settings serial_in serial_out pins eeprom with_serial_in saved
         with_eeprom] in *.
    destruct (serial_in d) as [|c rest] eqn:Hin; [discriminate Hhd|].
    injection Hhd as ->. cbn [hd]. rewrite Ascii.eqb_refl.
    repeat split; auto.
    + right. now rewrite Hee.
Qed.

End Protocol.

(** ** The telemetry line *)

Section TelemetryFacts.

Variables prec emax : Z.
Variable print_double : spec_float -> Z -> string.
Variable digitalRead : list (Z * bool) -> Z -> Z.

Abbreviation report := (dumpToSerial prec emax print_double digitalRead).




End TelemetryFacts.

(** ** The further properties on the bench *)

Abbreviation bench_serve :=
  (serParseCommand 24 128 bench_reset bench_adc DEFAULT_AREF).

Lemma bench_settings_ok : settings_ok bench_settings.
Proof.
  unfold settings_ok, INT_MIN, INT_MAX. cbn.
  repeat split; try reflexivity; lia.
Qed.

(** X3 on the bench. *)
Lemma idle_call_does_nothing_witness : bench_run "" = Done (bench "").
Proof.
  apply (idle_call_does_nothing 24 128 bench_reset bench_adc DEFAULT_AREF
           (bench "")).
  reflexivity.
Defined.

(** X4: two stray bytes in front of [#P50]. *)
Lemma stray_bytes_cost_a_call_each_witness :
  calls bench_serve 2 (bench "ab#P50") =
    Done (with_serial_in (list_ascii_of_string "#P50") (bench "ab#P50")) /\
  calls bench_serve 3 (bench "ab#P50") =
    calls bench_serve 1
      (with_serial_in (list_ascii_of_string "#P50") (bench "ab#P50")).
Proof.
  apply (stray_bytes_cost_a_call_each 24 128 bench_reset bench_adc DEFAULT_AREF
           (list_ascii_of_string "ab") (list_ascii_of_string "#P50")).
  - repeat constructor; discriminate.
  - reflexivity.
Defined.

(** X6: the frame [#B22]. *)
Lemma numeric_commands_set_their_field_witness :
  bench_run "#B22" =
    Done (saved (printed ("R2: 22 Kohm" ++ CRLF)
                   (with_settings (set_r2 22) (with_serial_in [] (bench "#B22"))))).
Proof.
  destruct (numeric_commands_set_their_field 24 128 bench_reset bench_adc
              DEFAULT_AREF (bench "#B22") "B"%char (list_ascii_of_string "22")
              eq_refl ltac:(fits) ltac:(vm_compute; discriminate))
    as (_ & _ & H & _).
  apply H. reflexivity.
Defined.

(** X7: a feed identifier beyond the range of [int]. *)
Lemma feedid_command_witness :
  bench_run "#F70000" =
    Done (saved (with_settings (set_feedid 70000)
                   (with_serial_in [] (bench "#F70000")))).
Proof.
  apply (feedid_command 24 128 bench_reset bench_adc DEFAULT_AREF
           (bench "#F70000") (list_ascii_of_string "70000")
           eq_refl ltac:(fits)).
  vm_compute. discriminate.
Defined.

(** X8: a feed URL. *)
Lemma feedsurl_command_witness :
  exists d',
    bench_run "#Uhttp://example.org/feeds" = Done d' /\
    cstr (feedsurl (settings d')) = list_ascii_of_string "http://example.org/feeds" /\
    length (feedsurl (settings d')) = FEEDSURL_SIZE.
Proof.
  destruct (feedsurl_command 24 128 bench_reset bench_adc DEFAULT_AREF
              (bench "#Uhttp://example.org/feeds")
              (list_ascii_of_string "http://example.org/feeds")
              eq_refl ltac:(fits) eq_refl) as (Hrun & Hlen & Hstr).
  eexists. split; [exact Hrun|]. split; [exact Hstr | exact Hlen].
Defined.

(** X9: a converter that reads 512 every time. *)
Lemma calibration_command_witness :
  0 <= total bench_adc 0 1000 0 <= 1023000 /\
  exists v,
    bench_run "#T" =
      Done (saved (with_settings (set_offset (wrap16 v))
                     (printed ("@offset: " ++ decimal v ++ CRLF)
                        (with_serial_in [] (bench "#T"))))).
Proof.
  destruct (calibration_command 24 128 bench_reset bench_adc DEFAULT_AREF
              (bench "#T") [] eq_refl ltac:(fits)
              ltac:(intros k; unfold bench_adc; lia)) as (Hsum & Hrun).
  split; [exact Hsum|]. eexists. exact Hrun.
Defined.

(** X10: the dump of the bench, and a record whose tag fills its array. *)
Lemma dump_command_witness :
  bench_run "#Z" =
    Done (saved (printed (dump_text bench_settings) (with_serial_in [] (bench "#Z")))) /\
  bench_serve (bench_full_tag "#Z")
  = Undefined Unterminated.
Proof.
  split.
  - apply (dump_command 24 128 bench_reset bench_adc DEFAULT_AREF
             (bench "#Z") [] eq_refl ltac:(fits)).
    reflexivity.
  - apply (dump_command 24 128 bench_reset bench_adc DEFAULT_AREF
             (bench_full_tag "#Z") [] eq_refl ltac:(fits)).
    reflexivity.
Defined.

(** X11: the record of the bench after the frame [#K] with a long key. *)
Lemma settings_stay_well_formed_witness :
  exists d',
    bench_run "#K0123456789abcdefghijklmnopqrstuvwxyzABCDEFGHIJKLMNOP" = Done d' /\
    settings_ok (settings d').
Proof.
  eexists. split; [vm_compute; reflexivity|].
  apply (settings_stay_well_formed 24 128 bench_reset bench_adc DEFAULT_AREF
           (bench "#K0123456789abcdefghijklmnopqrstuvwxyzABCDEFGHIJKLMNOP")).
  - exact bench_settings_ok.
  - intros d0 H. exact H.
  - vm_compute. reflexivity.
Defined.

(** X12: the bench after a first save, then the frames [#A47] and [#A-47]. *)
Lemma saved_record_stays_current_witness :
  (exists d',
     bench_serve (saved (bench "#A47")) = Done d' /\
     in_sync d' /\ loadSettings bench_settings d' = Next tt d') /\
  (exists d',
     bench_serve (saved (bench "#A-47")) = Done d' /\
     in_sync d' /\ loadSettings bench_settings d' = Next tt d').
Proof.
  split; (eexists; split; [vm_compute; reflexivity|]).
  - apply (saved_record_stays_current 24 128 bench_reset bench_adc DEFAULT_AREF
             bench_settings (saved (bench "#A47"))); [reflexivity|].
    vm_compute. reflexivity.
  - apply (saved_record_stays_current 24 128 bench_reset bench_adc DEFAULT_AREF
             bench_settings (saved (bench "#A-47"))); [reflexivity|].
    vm_compute. reflexivity.
Defined.

(** X13: the frame [#S1] on the bench. *)
Lemma commands_touch_only_their_own_witness :
  exists d',
    bench_run "#S1" = Done d' /\
    fixed_fields (settings d') = fixed_fields bench_settings /\
    pins d' = [(2, HIGH)] /\
    serial_in d' = [].
Proof.
  eexists. split; [vm_compute; reflexivity|].
  destruct (commands_touch_only_their_own 24 128 bench_reset bench_adc
              DEFAULT_AREF (bench "#S1") _ ltac:(vm_compute; reflexivity)
              ltac:(intros [_ H]; discriminate H))
    as (Hfix & _ & _ & _ & Hq).
  split; [exact Hfix|]. split; [reflexivity | exact Hq].
Defined.


(** ** One frame per batch *)

Lemma digits_app_halts p z acc : halts z -> digits acc (p ++ z) = digits acc p.
Proof.
  intros Hz. revert acc. induction p as [|c p IH]; intros acc; simpl.
  - destruct z as [|c z]; simpl in *; [reflexivity|].
    destruct Hz as (-> & _). reflexivity.
  - destruct (isdigit c); [apply IH | reflexivity].
Qed.

Lemma signed_digits_app_halts p z :
  halts z -> signed_digits (p ++ z) = signed_digits p.
Proof.
  intros Hz. destruct p as [|c p].
  - destruct z as [|c z]; simpl in *; [reflexivity|].
    destruct Hz as (Hd & _ & -> & ->). now rewrite Hd.
  - cbn [app]. unfold signed_digits.
    pose proof (digits_app_halts (c :: p) z 0 Hz) as H0.
    pose proof (digits_app_halts p z 0 Hz) as H1.
    simpl app in H0. rewrite H0, H1. reflexivity.
Qed.

Lemma skip_space_app_halts p z :
  halts z -> skip_space (p ++ z) = skip_space p ++ z.
Proof.
  intros Hz. induction p as [|c p IH]; simpl.
  - destruct z as [|c z]; simpl in *; [reflexivity|].
    destruct Hz as (_ & -> & _). reflexivity.
  - destruct (isspace c); [apply IH | reflexivity].
Qed.

Lemma atoi_app_halts p z : halts z -> atoi (p ++ z) = atoi p.
Proof.
  intros Hz. unfold atoi.
  now rewrite skip_space_app_halts, signed_digits_app_halts.
Qed.

Section OneFrame.

Variables prec emax : Z.
Variable reset : device -> device.
Variable analogRead : Z -> nat -> Z.
Variable aref : Z.

Abbreviation serve1 := (serParseCommand prec emax reset analogRead aref).

(** The branches behind [atoi] see the buffer through the number only. *)
Lemma numeric_branch_by_value (c : ascii) (buf buf' : list ascii) (d : device) :
  ~ In c text_commands -> atoi buf = atoi buf' ->
  dispatch prec emax reset analogRead aref c buf d =
  dispatch prec emax reset analogRead aref c buf' d.
Proof.
  intros Hc Heq. unfold dispatch. settle_tests Hc. cbv zeta.
  now rewrite Heq.
Qed.

(** X15.  A batch holds one frame.  When a second frame follows a frame of
    a numeric command (or of an unknown one) in the same batch, the call has
    the effect of the first frame alone and takes the second one off the
    queue with it: the second command is lost. *)
Theorem second_frame_is_swallowed (d : device) (c : ascii)
    (payload rest : list ascii) :
  serial_in d = "#"%char :: c :: payload ++ "#"%char :: rest ->
  fits_buffer (payload ++ "#"%char :: rest) ->
  ~ In c text_commands ->
  serve1 d = serve1 (with_serial_in ("#"%char :: c :: payload) d).
Proof.
  intros Hin Hfit Hc.
  assert (Hfit' : fits_buffer payload).
  { unfold fits_buffer in *. rewrite length_app in Hfit. lia. }
  unfold serParseCommand, call.
  rewrite (body_frame _ _ _ _ aref c _ d Hin (fits_buffer_length _ Hfit)).
  rewrite (body_frame _ _ _ _ aref c payload
             (with_serial_in ("#"%char :: c :: payload) d) eq_refl
             (fits_buffer_length _ Hfit')).
  rewrite with_serial_in_twice. unfold bind.
  rewrite (numeric_branch_by_value c (padded (payload ++ "#"%char :: rest))
             (padded payload) _ Hc); [reflexivity|].
  rewrite !atoi_padded. apply atoi_app_halts. cbn. auto.
Qed.

End OneFrame.

(** X15: the batch [#P50#A10] on the bench sets the period and not [r1]. *)
Lemma second_frame_is_swallowed_witness :
  bench_run "#P50#A10" = bench_serve (with_serial_in (list_ascii_of_string "#P50")
                                        (bench "#P50#A10")) /\
  exists d',
    bench_run "#P50#A10" = Done d' /\
    period (settings d') = 50 /\ r1 (settings d') = 100 /\ serial_in d' = [].
Proof.
  split.
  - apply (second_frame_is_swallowed 24 128 bench_reset bench_adc DEFAULT_AREF
             (bench "#P50#A10") "P"%char (list_ascii_of_string "50")
             (list_ascii_of_string "A10") eq_refl ltac:(fits)).
    vm_compute. intuition discriminate.
  - eexists. split; [vm_compute; reflexivity|]. repeat split.
Defined.
